(** * GPinv.likelihoods: stochastic variational expectations

    A shallow embedding of [GPinv/likelihoods.py]: the classes
    [StochasticLikelihood], [Gaussian] and [Poisson], their methods, and
    the TensorFlow array operations those methods call.

    - A tensor is a shape together with its row-major data.
    - A Python exception is a value of [exn]; a computation that may
      raise lives in [result], one that also consumes the process-wide
      random stream lives in [M] (state passing over the stream).
    - Scalars are abstract ([Scalar]); the value-level theorems that
      need arithmetic laws are stated at the instance of real numbers. *)

From Stdlib Require Import String List Arith Bool Lia Reals Lra.
Import ListNotations.

Set Implicit Arguments.

(** ** Python exceptions and results

    [NotImplementedError] is raised by the method bodies the base class
    only declares, [AttributeError] by the lookup of a name that is not
    defined, [TypeError] by a call with the wrong number of arguments,
    and [ValueError] by a TensorFlow operation whose arguments have
    incompatible shapes. *)

Inductive exn : Type :=
| NotImplementedError
| AttributeError (attr : string)
| TypeError
| ValueError.

Inductive result (A : Type) : Type :=
| Ok (a : A)
| Raise (e : exn).

Arguments Ok {A} a.
Arguments Raise {A} e.

Definition rbind {A B} (r : result A) (k : A -> result B) : result B :=
  match r with
  | Ok a => k a
  | Raise e => Raise e
  end.

(** [dtype] argument of [tf.random_normal]. *)
Inductive dtype : Type := float32 | float64.

(** ** Scalars

    The element type of arrays with the operations the module applies to
    it.  [s_half], [s_two], [s_pi] and [s_one] are the literals [0.5],
    [2], [np.pi] and [1.0] of the source. *)

Class Scalar (T : Type) : Type := {
  s_zero : T;
  s_one : T;
  s_half : T;
  s_two : T;
  s_pi : T;
  s_of_nat : nat -> T;
  s_neg : T -> T;
  s_add : T -> T -> T;
  s_sub : T -> T -> T;
  s_mul : T -> T -> T;
  s_div : T -> T -> T;
  s_log : T -> T;
  s_exp : T -> T
}.

(** ** Index arithmetic on shapes *)

Definition numel (sh : list nat) : nat := fold_right Nat.mul 1 sh.

(** Row-major offset of a multi-index. *)
Fixpoint offset (sh idx : list nat) : nat :=
  match sh, idx with
  | _ :: sh', i :: idx' => i * numel sh' + offset sh' idx'
  | _, _ => 0
  end.

(** [in_range idx sh]: [idx] is a valid multi-index of an array of shape [sh]. *)
Definition in_range (idx sh : list nat) : Prop := Forall2 lt idx sh.

Fixpoint map2 {A B C} (f : A -> B -> C) (l1 : list A) (l2 : list B) : list C :=
  match l1, l2 with
  | a :: l1', b :: l2' => f a b :: map2 f l1' l2'
  | _, _ => []
  end.

(** Position of the first occurrence of [j] in [l] ([length l] if absent). *)
Fixpoint index_of (j : nat) (l : list nat) : nat :=
  match l with
  | [] => 0
  | p :: l' => if p =? j then 0 else S (index_of j l')
  end.

(** [perm] lists every axis [0 .. r-1] exactly once. *)
Definition is_perm (perm : list nat) (r : nat) : bool :=
  (length perm =? r) && forallb (fun j => existsb (Nat.eqb j) perm) (seq 0 r).

(** Broadcasting of two shapes, aligned on the trailing axis; the
    arguments of [bcast_rev] are reversed shapes. *)
Fixpoint bcast_rev (r1 r2 : list nat) : option (list nat) :=
  match r1, r2 with
  | [], r => Some r
  | r, [] => Some r
  | a :: r1', b :: r2' =>
      match bcast_rev r1' r2' with
      | Some r =>
          if a =? b then Some (a :: r)
          else if a =? 1 then Some (b :: r)
          else if b =? 1 then Some (a :: r)
          else None
      | None => None
      end
  end.

Definition broadcast_shapes (s1 s2 : list nat) : option (list nat) :=
  option_map (@rev nat) (bcast_rev (rev s1) (rev s2)).

(** Index into an operand of shape [sh] for the output index [idx] of a
    broadcast operation: the trailing axes, with 0 along axes of size 1. *)
Definition bidx (sh idx : list nat) : list nat :=
  map2 (fun d i => if d =? 1 then 0 else i) sh
       (skipn (length idx - length sh) idx).

Section Tensors.

Context {T : Type} `{Scalar T}.

(** ** Tensors *)

Record tensor : Type := mkTensor {
  shape : list nat;
  data : list T
}.

Definition rank (t : tensor) : nat := length (shape t).

(** Well-formed tensors carry exactly one datum per index. *)
Definition wf (t : tensor) : Prop := length (data t) = numel (shape t).

Definition get (t : tensor) (idx : list nat) : T :=
  nth (offset (shape t) idx) (data t) s_zero.

(** Row-major enumeration of [f] over all indices of shape [sh]. *)
Fixpoint tab (sh : list nat) (f : list nat -> T) : list T :=
  match sh with
  | [] => [f []]
  | d :: sh' => concat (map (fun i => tab sh' (fun idx => f (i :: idx))) (seq 0 d))
  end.

Definition tabulate (sh : list nat) (f : list nat -> T) : tensor :=
  mkTensor sh (tab sh f).

(** A Python float or a numpy scalar used as an operand. *)
Definition scalar (c : T) : tensor := mkTensor [] [c].

(** Left-to-right sum [f 0 + f 1 + ... + f (n-1)]. *)
Definition sum_upto (n : nat) (f : nat -> T) : T :=
  fold_left (fun acc k => s_add acc (f k)) (seq 0 n) s_zero.

(** ** TensorFlow operations *)

(** [tf.shape(t)[i]] *)
Definition tf_shape_at (t : tensor) (i : nat) : result nat :=
  match nth_error (shape t) i with
  | Some d => Ok d
  | None => Raise ValueError
  end.

(** [tf.transpose(t, perm)]: axis [i] of the output is axis [perm[i]] of [t]. *)
Definition tf_transpose_perm (t : tensor) (perm : list nat) : result tensor :=
  if is_perm perm (rank t) then
    Ok (tabulate (map (fun p => nth p (shape t) 0) perm)
          (fun idx => get t (map (fun j => nth (index_of j perm) idx 0)
                                 (seq 0 (rank t)))))
  else Raise ValueError.

(** [tf.transpose(t)]: the axes reversed. *)
Definition tf_transpose (t : tensor) : result tensor :=
  tf_transpose_perm t (rev (seq 0 (rank t))).

(** [tf.expand_dims(t, [axis])] *)
Definition tf_expand_dims (t : tensor) (axis : nat) : result tensor :=
  if axis <=? rank t then
    Ok (tabulate (firstn axis (shape t) ++ 1 :: skipn axis (shape t))
          (fun idx => get t (firstn axis idx ++ skipn (S axis) idx)))
  else Raise ValueError.

(** [tf.tile(t, multiples)]: [multiples] has one entry per axis of [t]. *)
Definition tf_tile (t : tensor) (multiples : list nat) : result tensor :=
  if length multiples =? rank t then
    Ok (tabulate (map2 Nat.mul (shape t) multiples)
          (fun idx => get t (map2 Nat.modulo idx (shape t))))
  else Raise ValueError.

(** [tf.squeeze(t, [axis])]: removes axis [axis], which must have size 1. *)
Definition tf_squeeze (t : tensor) (axis : nat) : result tensor :=
  match nth_error (shape t) axis with
  | Some 1 =>
      Ok (tabulate (firstn axis (shape t) ++ skipn (S axis) (shape t))
            (fun idx => get t (firstn axis idx ++ 0 :: skipn axis idx)))
  | _ => Raise ValueError
  end.

(** [tf.batch_matmul(a, b, adj_y=adj_y)]: matrix product over the last
    two axes, for each index of the leading (batch) axes. *)
Definition tf_batch_matmul (a b : tensor) (adj_y : bool) : result tensor :=
  let r := rank a in
  let bs := firstn (r - 2) (shape a) in
  let n := nth (r - 2) (shape a) 0 in
  let k := nth (r - 1) (shape a) 0 in
  let kb := nth (if adj_y then r - 1 else r - 2) (shape b) 0 in
  let m := nth (if adj_y then r - 2 else r - 1) (shape b) 0 in
  if (2 <=? r) && (rank b =? r)
     && forallb (fun p => fst p =? snd p)
                (combine bs (firstn (r - 2) (shape b)))
     && (k =? kb)
  then
    Ok (tabulate (bs ++ [n; m])
          (fun idx =>
             let bi := firstn (r - 2) idx in
             let i := nth (r - 2) idx 0 in
             let j := nth (r - 1) idx 0 in
             sum_upto k (fun l =>
               s_mul (get a (bi ++ [i; l]))
                     (get b (bi ++ (if adj_y then [j; l] else [l; j]))))))
  else Raise ValueError.

(** [tf.batch_matrix_diag_part(t)]: the diagonals of the innermost
    square matrices. *)
Definition tf_batch_matrix_diag_part (t : tensor) : result tensor :=
  let r := rank t in
  let bs := firstn (r - 2) (shape t) in
  let n := nth (r - 2) (shape t) 0 in
  if (2 <=? r) && (n =? nth (r - 1) (shape t) 0) then
    Ok (tabulate (bs ++ [n])
          (fun idx =>
             let i := nth (r - 2) idx 0 in
             get t (firstn (r - 2) idx ++ [i; i])))
  else Raise ValueError.

(** Elementwise unary operations. *)
Definition tf_map (f : T -> T) (t : tensor) : result tensor :=
  Ok (tabulate (shape t) (fun idx => f (get t idx))).

Definition tf_log : tensor -> result tensor := tf_map s_log.
Definition tf_exp : tensor -> result tensor := tf_map s_exp.
Definition tf_square : tensor -> result tensor := tf_map (fun x => s_mul x x).

(** Elementwise binary operations with broadcasting; incompatible shapes
    are rejected. *)
Definition tf_binop (f : T -> T -> T) (a b : tensor) : result tensor :=
  match broadcast_shapes (shape a) (shape b) with
  | Some sh =>
      Ok (tabulate sh (fun idx => f (get a (bidx (shape a) idx))
                                    (get b (bidx (shape b) idx))))
  | None => Raise ValueError
  end.

Definition tf_add : tensor -> tensor -> result tensor := tf_binop s_add.
Definition tf_sub : tensor -> tensor -> result tensor := tf_binop s_sub.
Definition tf_mul : tensor -> tensor -> result tensor := tf_binop s_mul.
Definition tf_div : tensor -> tensor -> result tensor := tf_binop s_div.

(** [tf.reduce_mean(t, reduction_indices=[0])] *)
Definition tf_reduce_mean0 (t : tensor) : result tensor :=
  match shape t with
  | [] => Raise ValueError
  | S_ :: sh =>
      Ok (tabulate sh
            (fun idx => s_div (sum_upto S_ (fun s => get t (s :: idx)))
                              (s_of_nat S_)))
  end.

(** Lookup of a function of two arguments in the [tf] module. *)
Definition tf_attr (name : string)
  : result (tensor -> list nat -> result tensor) :=
  if String.eqb name "transpose" then Ok tf_transpose_perm
  else Raise (AttributeError name).

End Tensors.

Arguments tensor T : clear implicits.

(** ** Computations over the random stream

    [tf.random_normal] draws from a process-wide stream; the stream
    state is threaded explicitly.  An exception leaves the state as it
    was when it was raised. *)

Definition M (rng A : Type) : Type := rng -> result A * rng.

Definition ret {rng A} (a : A) : M rng A := fun s => (Ok a, s).

Definition raise {rng A} (e : exn) : M rng A := fun s => (Raise e, s).

Definition bind {rng A B} (c : M rng A) (k : A -> M rng B) : M rng B :=
  fun s =>
    match c s with
    | (Ok a, s') => k a s'
    | (Raise e, s') => (Raise e, s')
    end.

(** An operation that does not touch the stream. *)
Definition lift {rng A} (r : result A) : M rng A := fun s => (r, s).

Declare Scope py_scope.
Delimit Scope py_scope with py.
Notation "x <- c ;; k" := (bind c (fun x => k))
  (at level 61, c at next level, right associativity) : py_scope.
Notation "' ( x , y ) <- c ;; k" := (bind c (fun p => let '(x, y) := p in k))
  (at level 61, x name, y name, c at next level, right associativity) : py_scope.

(** ** The likelihood classes *)

Inductive cls : Type := StochasticLikelihood | Gaussian | Poisson.

(** The methods a subclass may override. *)
Inductive method : Type := m_transform | m_logp | m_stochastic_expectations.

(** [overrides c m]: class [c] has its own [def m] in its body, replacing
    the one of [StochasticLikelihood]. *)
Definition overrides (c : cls) (m : method) : bool :=
  match c, m with
  | StochasticLikelihood, _ => false
  | Gaussian, _ => true
  | Poisson, m_transform => false
  | Poisson, _ => true
  end.

Section Likelihoods.

Context {T : Type} `{Scalar T}.

(** The state of the random stream, and the generator behind
    [tf.random_normal]: it returns the drawn array and the stream state
    after the draw. *)
Variable rng : Type.
Variable draw_normal : list nat -> dtype -> rng -> tensor T * rng.

Local Abbreviation Py := (M rng).
Local Open Scope py_scope.

(** [tf.random_normal(shape, dtype=dt)] *)
Definition tf_random_normal (shape : list nat) (dt : dtype) : Py (tensor T) :=
  fun s => let (t, s') := draw_normal shape dt s in (Ok t, s').

(** An instance: its class and its attribute dictionary.  An attribute
    the constructors never assign is absent ([None]). *)
Record likelihood : Type := mkLikelihood {
  class_of : cls;
  num_samples : nat;
  variance : option T;
  exact : option bool;
  invlink : option (tensor T -> result (tensor T))
}.

(** [GPflow.likelihoods.Likelihood.variational_expectations], inherited
    by every class of this module, and the log-densities of
    [GPflow.densities]. *)
Variable variational_expectations :
  likelihood -> tensor T -> tensor T -> tensor T -> Py (tensor T).
Variable densities_gaussian :
  tensor T -> tensor T -> tensor T -> result (tensor T).
Variable densities_poisson : tensor T -> tensor T -> result (tensor T).

(** *** Attribute access *)

(** [self.variance]: the parameter as an array of shape [[1]]. *)
Definition getattr_variance (self : likelihood) : Py (tensor T) :=
  match variance self with
  | Some v => ret (mkTensor [1] [v])
  | None => raise (AttributeError "variance")
  end.

Definition getattr_exact (self : likelihood) : Py bool :=
  match exact self with
  | Some b => ret b
  | None => raise (AttributeError "exact")
  end.

Definition getattr_invlink (self : likelihood)
  : Py (tensor T -> result (tensor T)) :=
  match invlink self with
  | Some f => ret f
  | None => raise (AttributeError "invlink")
  end.

(** *** Constructors *)

(** [StochasticLikelihood.__init__(self, num_samples=20)] *)
Definition StochasticLikelihood_init (num_samples : nat) : likelihood :=
  {| class_of := StochasticLikelihood; num_samples := num_samples;
     variance := None; exact := None; invlink := None |}.

(** [Gaussian.__init__(self, num_stocastic_points=20, exact=True)] *)
Definition Gaussian_init (num_stocastic_points : nat) (exact : bool)
  : likelihood :=
  {| class_of := Gaussian; num_samples := num_stocastic_points;
     variance := Some s_one; exact := Some exact; invlink := None |}.

(** [Poisson.__init__(self, invlink=tf.exp, num_stocastic_points=20, exact=True)] *)
Definition Poisson_init (invlink : tensor T -> result (tensor T))
    (num_stocastic_points : nat) (exact : bool) : likelihood :=
  {| class_of := Poisson; num_samples := num_stocastic_points;
     variance := None; exact := Some exact; invlink := Some invlink |}.

(** Assignment [self.variance = v], as the optimiser does to the
    parameter. *)
Definition set_variance (v : T) (self : likelihood) : likelihood :=
  {| class_of := class_of self; num_samples := num_samples self;
     variance := Some v; exact := exact self; invlink := invlink self |}.

(** *** Methods of [StochasticLikelihood] *)

Definition StochasticLikelihood_transform (self : likelihood) (F : tensor T)
  : Py (tensor T) :=
  raise NotImplementedError.

Definition StochasticLikelihood_logp (self : likelihood)
    (Gmu Gvar Y : tensor T) : Py (tensor T) :=
  raise NotImplementedError.

Definition estimate_mu_var (self : likelihood) (G : tensor T)
  : Py (tensor T * tensor T) :=
  Gmu <- lift (tf_reduce_mean0 G) ;;
  d <- lift (tf_sub G Gmu) ;;
  sq <- lift (tf_square d) ;;
  Gvar <- lift (tf_reduce_mean0 sq) ;;
  ret (Gmu, Gvar).

(** *** Methods of [Gaussian] and [Poisson] *)

Definition Gaussian_transform (self : likelihood) (F : tensor T)
  : Py (tensor T) :=
  ret F.

Definition Gaussian_logp (self : likelihood) (F Y : tensor T)
  : Py (tensor T) :=
  v <- getattr_variance self ;;
  lift (densities_gaussian F Y v).

Definition Poisson_logp (self : likelihood) (F Y : tensor T)
  : Py (tensor T) :=
  f <- getattr_invlink self ;;
  lam <- lift (f F) ;;
  lift (densities_poisson lam Y).

(** *** Method resolution *)

(** [self.transform(F)] *)
Definition transform (self : likelihood) (F : tensor T) : Py (tensor T) :=
  match class_of self with
  | Gaussian => Gaussian_transform self F
  | StochasticLikelihood | Poisson => StochasticLikelihood_transform self F
  end.

(** [self.logp(...)]: a call whose argument count does not fit the
    resolved definition is a [TypeError]. *)
Definition logp (self : likelihood) (args : list (tensor T)) : Py (tensor T) :=
  match class_of self, args with
  | StochasticLikelihood, [Gmu; Gvar; Y] =>
      StochasticLikelihood_logp self Gmu Gvar Y
  | Gaussian, [F; Y] => Gaussian_logp self F Y
  | Poisson, [F; Y] => Poisson_logp self F Y
  | _, _ => raise TypeError
  end.

(** *** [stochastic_expectations] *)

(** The three sampling statements of
    [StochasticLikelihood.stochastic_expectations], one definition per
    assignment.

    [rndn = tf.random_normal([self.num_samples, tf.shape(L)[2],
    tf.shape(L)[1], 1], dtype=tf.float64)] *)
Definition assign_rndn (self : likelihood) (L : tensor T) : Py (tensor T) :=
  M_ <- lift (tf_shape_at L 2) ;;
  N_ <- lift (tf_shape_at L 1) ;;
  tf_random_normal [num_samples self; M_; N_; 1] float64.

(** [L = tf.tile(tf.expand_dims(tf.transpose(L, [2,0,1]), [0]),
    [self.num_samples, 1,1])] *)
Definition assign_L (self : likelihood) (L : tensor T) : Py (tensor T) :=
  Lt <- lift (tf_transpose_perm L [2; 0; 1]) ;;
  Le <- lift (tf_expand_dims Lt 0) ;;
  lift (tf_tile Le [num_samples self; 1; 1]).

(** [X = tf.tile(tf.expand_dims(Fmu, [0]), [self.num_samples, 1, 1]) +
    tf.stranspose(tf.squeeze(tf.batch_matmul(L, rndn), [3]), [0,2,1])]:
    the left operand first, then the function named on the right, then
    its arguments. *)
Definition assign_X (self : likelihood) (Fmu L rndn : tensor T)
  : Py (tensor T) :=
  Fe <- lift (tf_expand_dims Fmu 0) ;;
  Ft <- lift (tf_tile Fe [num_samples self; 1; 1]) ;;
  stranspose <- lift (tf_attr "stranspose") ;;
  Lr <- lift (tf_batch_matmul L rndn false) ;;
  sq <- lift (tf_squeeze Lr 3) ;;
  tr <- lift (stranspose sq [0; 2; 1]) ;;
  lift (tf_add Ft tr).

Definition sample_X (self : likelihood) (Fmu L : tensor T) : Py (tensor T) :=
  rndn <- assign_rndn self L ;;
  L' <- assign_L self L ;;
  assign_X self Fmu L' rndn.

Definition StochasticLikelihood_stochastic_expectations
    (self : likelihood) (Fmu L Y : tensor T) : Py (tensor T) :=
  X <- sample_X self Fmu L ;;
  G <- transform self X ;;
  '(Gmu, Gvar) <- estimate_mu_var self G ;;
  variational_expectations self Gmu Gvar Y.

Definition Gaussian_stochastic_expectations
    (self : likelihood) (Fmu L Y : tensor T) : Py (tensor T) :=
  ex <- getattr_exact self ;;
  if ex then
    L <- lift (tf_transpose_perm L [2; 0; 1]) ;;
    LLt <- lift (tf_batch_matmul L L true) ;;
    Fvar <- lift (tf_batch_matrix_diag_part LLt) ;;
    Fmu <- lift (tf_transpose Fmu) ;;
    Y <- lift (tf_transpose Y) ;;
    v <- getattr_variance self ;;
    lv <- lift (tf_log v) ;;
    hl <- lift (tf_mul (scalar s_half) lv) ;;
    a <- lift (tf_sub (scalar (s_mul (s_neg s_half)
                                     (s_log (s_mul s_two s_pi)))) hl) ;;
    d <- lift (tf_sub Y Fmu) ;;
    sq <- lift (tf_square d) ;;
    s <- lift (tf_add sq Fvar) ;;
    hs <- lift (tf_mul (scalar s_half) s) ;;
    v' <- getattr_variance self ;;
    q <- lift (tf_div hs v') ;;
    lift (tf_sub a q)
  else StochasticLikelihood_stochastic_expectations self Fmu L Y.

Definition Poisson_stochastic_expectations
    (self : likelihood) (Fmu L Y : tensor T) : Py (tensor T) :=
  ex <- getattr_exact self ;;
  if ex then
    L <- lift (tf_transpose_perm L [2; 0; 1]) ;;
    LLt <- lift (tf_batch_matmul L L true) ;;
    Fvar <- lift (tf_batch_matrix_diag_part LLt) ;;
    Fmu <- lift (tf_transpose Fmu) ;;
    Y <- lift (tf_transpose Y) ;;
    v <- getattr_variance self ;;
    lv <- lift (tf_log v) ;;
    hl <- lift (tf_mul (scalar s_half) lv) ;;
    a <- lift (tf_sub (scalar (s_mul (s_neg s_half)
                                     (s_log (s_mul s_two s_pi)))) hl) ;;
    d <- lift (tf_sub Y Fmu) ;;
    sq <- lift (tf_square d) ;;
    s <- lift (tf_add sq Fvar) ;;
    hs <- lift (tf_mul (scalar s_half) s) ;;
    v' <- getattr_variance self ;;
    q <- lift (tf_div hs v') ;;
    lift (tf_sub a q)
  else
    f <- getattr_invlink self ;;
    Fmu' <- lift (f Fmu) ;;
    StochasticLikelihood_stochastic_expectations self Fmu' L Y.

(** [self.stochastic_expectations(Fmu, L, Y)] *)
Definition stochastic_expectations (self : likelihood) (Fmu L Y : tensor T)
  : Py (tensor T) :=
  match class_of self with
  | StochasticLikelihood =>
      StochasticLikelihood_stochastic_expectations self Fmu L Y
  | Gaussian => Gaussian_stochastic_expectations self Fmu L Y
  | Poisson => Poisson_stochastic_expectations self Fmu L Y
  end.

End Likelihoods.

(** ** The closed-form branch and the moments, named

    The values the closed-form branch binds, as functions of the
    inputs; [Gaussian_exact_run] below relates them to the method. *)

Section Formulas.

Context {T : Type} `{Scalar T}.

(** Entry [(n, n)] of [L[:,:,m] L[:,:,m]^T]. *)
Definition cov_diag (L : tensor T) (n m : nat) : T :=
  sum_upto (nth 1 (shape L) 0)
           (fun k => s_mul (get L [n; k; m]) (get L [n; k; m])).

(** The value bound to [Fvar]. *)
Definition Fvar_of (L : tensor T) : result (tensor T) :=
  rbind (tf_transpose_perm L [2; 0; 1]) (fun Lt =>
  rbind (tf_batch_matmul Lt Lt true) tf_batch_matrix_diag_part).

(** The returned expression, given the values of [self.variance], [Fvar]
    and the transposed [Fmu] and [Y]. *)
Definition closed_form (v Fvar Fmu Y : tensor T) : result (tensor T) :=
  rbind (tf_log v) (fun lv =>
  rbind (tf_mul (scalar s_half) lv) (fun hl =>
  rbind (tf_sub (scalar (s_mul (s_neg s_half) (s_log (s_mul s_two s_pi)))) hl)
        (fun a =>
  rbind (tf_sub Y Fmu) (fun d =>
  rbind (tf_square d) (fun sq =>
  rbind (tf_add sq Fvar) (fun s =>
  rbind (tf_mul (scalar s_half) s) (fun hs =>
  rbind (tf_div hs v) (fun q =>
  tf_sub a q)))))))).

Definition exact_value (v : T) (Fmu L Y : tensor T) : result (tensor T) :=
  rbind (Fvar_of L) (fun Fvar =>
  rbind (tf_transpose Fmu) (fun Fmu' =>
  rbind (tf_transpose Y) (fun Y' =>
  closed_form (mkTensor [1] [v]) Fvar Fmu' Y'))).

(** The closed form for one entry: [-0.5*log(2 pi) - 0.5*log(variance)
    - 0.5*((y - fmu)^2 + fvar) / variance]. *)
Definition gaussian_formula (variance y fmu fvar : T) : T :=
  s_sub (s_sub (s_mul (s_neg s_half) (s_log (s_mul s_two s_pi)))
               (s_mul s_half (s_log variance)))
        (s_div (s_mul s_half
                      (s_add (s_mul (s_sub y fmu) (s_sub y fmu)) fvar))
               variance).

(** The sample mean along axis 0. *)
Definition mean_upto (n : nat) (f : nat -> T) : T :=
  s_div (sum_upto n f) (s_of_nat n).

End Formulas.

(** ** Instances *)

(** Real numbers as scalars: the arithmetic of the module without
    rounding. *)
#[export] Instance Scalar_R : Scalar R := {|
  s_zero := 0%R;
  s_one := 1%R;
  s_half := (1 / 2)%R;
  s_two := 2%R;
  s_pi := PI;
  s_of_nat := INR;
  s_neg := Ropp;
  s_add := Rplus;
  s_sub := Rminus;
  s_mul := Rmult;
  s_div := Rdiv;
  s_log := ln;
  s_exp := exp
|}.

(** A random stream given by a fixed sequence of draws: the state is the
    number of draws consumed so far. *)
Definition stream_draw {T} `{Scalar T} (draws : nat -> T)
    (shape : list nat) (dt : dtype) (pos : nat) : tensor T * nat :=
  (mkTensor shape (map draws (seq pos (numel shape))), pos + numel shape).

(** *** A concrete runtime and concrete inputs

    To run the methods on examples the imported functions are fixed: the
    stream yields zero draws, and [variational_expectations] and the
    densities return their first argument.  No run of
    [stochastic_expectations] reaches [variational_expectations]
    ([variational_expectations_unreached] below). *)

Definition ex_draw : list nat -> dtype -> nat -> tensor R * nat :=
  stream_draw (fun _ => 0%R).

Definition ex_expectations (self : likelihood (T:=R))
    (Gmu Gvar Y : tensor R) : M nat (tensor R) :=
  ret Gmu.

Definition ex_gaussian (x mu var : tensor R) : result (tensor R) := Ok x.

Definition ex_poisson (lam y : tensor R) : result (tensor R) := Ok lam.

(** [Fmu = [[0.0]]], [L = [[[1.0]]]], [Y = [[0.0]]]. *)
Definition ex_Fmu11 : tensor R := mkTensor [1; 1] [0%R].
Definition ex_L111 : tensor R := mkTensor [1; 1; 1] [1%R].
Definition ex_Y11 : tensor R := mkTensor [1; 1] [0%R].

(** Two points, one output. *)
Definition ex_Fmu21 : tensor R := mkTensor [2; 1] [0%R; 0%R].
Definition ex_L221 : tensor R := mkTensor [2; 2; 1] [1%R; 0%R; 3%R; 4%R].
Definition ex_L221' : tensor R := mkTensor [2; 2; 1] [1%R; 0%R; 5%R; 0%R].
Definition ex_Y21 : tensor R := mkTensor [2; 1] [1%R; 2%R].

(** Five points: [Fmu] and [Y] with one or two columns, [L] with three
    outputs. *)
Definition ex_Fmu51 : tensor R := mkTensor [5; 1] (repeat 0%R 5).
Definition ex_Fmu52 : tensor R := mkTensor [5; 2] (repeat 0%R 10).
Definition ex_L553 : tensor R := mkTensor [5; 5; 3] (repeat 1%R 75).
Definition ex_Y51 : tensor R := mkTensor [5; 1] (repeat 0%R 5).
Definition ex_Y52 : tensor R := mkTensor [5; 2] (repeat 0%R 10).

(** One sample of a two-entry array. *)
Definition ex_G12 : tensor R := mkTensor [1; 2] [3%R; 4%R].

(** A factor with two rows and three columns, one output. *)
Definition ex_L231 : tensor R :=
  mkTensor [2; 3; 1] [1%R; 0%R; 2%R; 3%R; 4%R; 0%R].

(** Two samples [[1, 2]] and [[3, 4]], and their images under
    [g |-> 2 g + 1]. *)
Definition ex_G22 : tensor R := mkTensor [2; 2] [1%R; 2%R; 3%R; 4%R].
Definition ex_G22' : tensor R := mkTensor [2; 2] [3%R; 5%R; 7%R; 9%R].


(** ** Facts about indexing *)

Section TensorFacts.

Context {T : Type} `{Scalar T}.

Lemma tab_length (sh : list nat) (f : list nat -> T) :
  length (tab sh f) = numel sh.
Proof.
  revert f; induction sh as [|d sh IH]; intros f; simpl; [reflexivity|].
  generalize 0 as a.
  induction d as [|d IHd]; intros a; simpl; [reflexivity|].
  rewrite length_app, IH, IHd; reflexivity.
Qed.

Lemma offset_lt (sh idx : list nat) :
  in_range idx sh -> offset sh idx < numel sh.
Proof.
  intros Hr; induction Hr as [|i d idx sh Hi Hr IH]; simpl; [lia|].
  nia.
Qed.

(** Reading the [j]-th entry of the [i]-th block of a concatenation of
    blocks of equal length [k]. *)
Lemma nth_concat_blocks (g : nat -> list T) (k d a i j : nat) (dflt : T) :
  (forall x, length (g x) = k) ->
  i < d -> j < k ->
  nth (i * k + j) (concat (map g (seq a d))) dflt = nth j (g (a + i)) dflt.
Proof.
  intros Hlen; revert a i.
  induction d as [|d IH]; intros a i Hi Hj; [lia|].
  simpl. destruct i as [|i].
  - simpl. rewrite app_nth1 by (rewrite Hlen; lia).
    now rewrite Nat.add_0_r.
  - rewrite app_nth2 by (rewrite Hlen; simpl; lia).
    rewrite Hlen.
    replace (S i * k + j - k) with (i * k + j) by (simpl; lia).
    rewrite IH by lia. f_equal. f_equal. lia.
Qed.

Lemma nth_tab (sh idx : list nat) (f : list nat -> T) (dflt : T) :
  in_range idx sh -> nth (offset sh idx) (tab sh f) dflt = f idx.
Proof.
  intros Hr; revert f.
  induction Hr as [|i d idx sh Hi Hr IH]; intros f; simpl; [reflexivity|].
  rewrite (nth_concat_blocks (fun i => tab sh (fun idx => f (i :: idx)))
             (k := numel sh)).
  - simpl. apply IH.
  - intros x. apply tab_length.
  - exact Hi.
  - now apply offset_lt.
Qed.

Lemma shape_tabulate (sh : list nat) (f : list nat -> T) :
  shape (tabulate sh f) = sh.
Proof. reflexivity. Qed.

Lemma get_tabulate (sh idx : list nat) (f : list nat -> T) :
  in_range idx sh -> get (tabulate sh f) idx = f idx.
Proof. intros Hr. unfold get, tabulate; simpl. now apply nth_tab. Qed.

Lemma tab_ext (sh : list nat) (f g : list nat -> T) :
  (forall idx, in_range idx sh -> f idx = g idx) -> tab sh f = tab sh g.
Proof.
  revert f g; induction sh as [|d sh IH]; intros f g Hfg; simpl.
  - f_equal. apply Hfg. constructor.
  - f_equal. apply map_ext_in. intros i Hi. apply in_seq in Hi.
    apply IH. intros idx Hr. apply Hfg. constructor; [lia|exact Hr].
Qed.

Lemma tabulate_ext (sh : list nat) (f g : list nat -> T) :
  (forall idx, in_range idx sh -> f idx = g idx) ->
  tabulate sh f = tabulate sh g.
Proof. intros Hfg. unfold tabulate. f_equal. now apply tab_ext. Qed.

Lemma sum_upto_ext (n : nat) (f g : nat -> T) :
  (forall k, k < n -> f k = g k) -> sum_upto n f = sum_upto n g.
Proof.
  unfold sum_upto. intros Hfg.
  assert (Hin : forall k, In k (seq 0 n) -> f k = g k).
  { intros k Hk. apply in_seq in Hk. apply Hfg. lia. }
  revert Hin. generalize (seq 0 n) as l. generalize s_zero as acc.
  intros acc l; revert acc; induction l as [|k l IH]; intros acc Hin; simpl.
  - reflexivity.
  - rewrite (Hin k) by now left. apply IH. intros k' Hk'. apply Hin. now right.
Qed.

(** Indices in range of a two- or three-axis shape. *)
Lemma in_range_2 (idx : list nat) (a b : nat) :
  in_range idx [a; b] -> exists i j, idx = [i; j] /\ i < a /\ j < b.
Proof.
  intros Hr. inversion Hr as [|i ? idx1 ? Hi Hr1]; subst.
  inversion Hr1 as [|j ? idx2 ? Hj Hr2]; subst.
  inversion Hr2; subst. now exists i, j.
Qed.

Lemma in_range_3_intro (i j k a b c : nat) :
  i < a -> j < b -> k < c -> in_range [i; j; k] [a; b; c].
Proof. intros; repeat constructor; assumption. Qed.

(** The default permutation of [tf.transpose] is always accepted. *)
Lemma is_perm_rev_seq (r : nat) : is_perm (rev (seq 0 r)) r = true.
Proof.
  unfold is_perm. rewrite length_rev, length_seq, Nat.eqb_refl. simpl.
  apply forallb_forall. intros j Hj. apply existsb_exists.
  exists j. split; [now apply in_rev in Hj|apply Nat.eqb_refl].
Qed.

(** Broadcasting an array against one that lacks its leading axis. *)
Lemma bcast_rev_snoc (r : list nat) (d : nat) :
  bcast_rev (r ++ [d]) r = Some (r ++ [d]).
Proof.
  induction r as [|a r IH]; simpl; [reflexivity|].
  now rewrite IH, Nat.eqb_refl.
Qed.

Lemma broadcast_shapes_cons (d : nat) (sh : list nat) :
  broadcast_shapes (d :: sh) sh = Some (d :: sh).
Proof.
  unfold broadcast_shapes. simpl. rewrite bcast_rev_snoc. simpl.
  now rewrite rev_app_distr, rev_involutive.
Qed.

Lemma map2_bidx_id (sh idx : list nat) :
  in_range idx sh ->
  map2 (fun d i => if d =? 1 then 0 else i) sh idx = idx.
Proof.
  intros Hr; induction Hr as [|i d idx sh Hi Hr IH]; simpl; [reflexivity|].
  rewrite IH. destruct (Nat.eqb_spec d 1); [f_equal; lia|reflexivity].
Qed.

Lemma bidx_self (sh idx : list nat) :
  in_range idx sh -> bidx sh idx = idx.
Proof.
  intros Hr. unfold bidx.
  rewrite (Forall2_length Hr), Nat.sub_diag. simpl. now apply map2_bidx_id.
Qed.

Lemma bidx_tail (sh idx : list nat) (s : nat) :
  in_range idx sh -> bidx sh (s :: idx) = idx.
Proof.
  intros Hr. unfold bidx. simpl length.
  rewrite (Forall2_length Hr).
  replace (S (length sh) - length sh) with 1 by lia.
  simpl. now apply map2_bidx_id.
Qed.

(** Shapes of broadcast operations. *)
Lemma bcast_rev_nil_r (r : list nat) : bcast_rev r [] = Some r.
Proof. destruct r; reflexivity. Qed.

Lemma bcast_rev_refl (r : list nat) : bcast_rev r r = Some r.
Proof.
  induction r as [|a r IH]; simpl; [reflexivity|].
  now rewrite IH, Nat.eqb_refl.
Qed.

Lemma bcast_rev_idem (r1 r2 r : list nat) :
  bcast_rev r1 r2 = Some r -> bcast_rev r r2 = Some r.
Proof.
  revert r2 r; induction r1 as [|a r1 IH]; intros r2 r Hb.
  - simpl in Hb. injection Hb as <-. apply bcast_rev_refl.
  - destruct r2 as [|b r2].
    + simpl in Hb. injection Hb as <-. reflexivity.
    + simpl in Hb.
      destruct (bcast_rev r1 r2) as [r'|] eqn:E; [|discriminate].
      apply IH in E.
      destruct (Nat.eqb_spec a b) as [->|Hab].
      * injection Hb as <-. simpl. now rewrite E, Nat.eqb_refl.
      * destruct (Nat.eqb_spec a 1) as [->|Ha].
        -- injection Hb as <-. simpl. now rewrite E, Nat.eqb_refl.
        -- destruct (Nat.eqb_spec b 1) as [->|Hb1]; [|discriminate].
           injection Hb as <-. simpl. rewrite E.
           destruct (Nat.eqb_spec a 1); [contradiction|reflexivity].
Qed.

Lemma broadcast_shapes_refl (sh : list nat) :
  broadcast_shapes sh sh = Some sh.
Proof.
  unfold broadcast_shapes. rewrite bcast_rev_refl. simpl.
  now rewrite rev_involutive.
Qed.

Lemma broadcast_shapes_idem (s1 s2 sh : list nat) :
  broadcast_shapes s1 s2 = Some sh -> broadcast_shapes sh s2 = Some sh.
Proof.
  unfold broadcast_shapes. intros Hb.
  destruct (bcast_rev (rev s1) (rev s2)) as [r|] eqn:E; [|discriminate].
  simpl in Hb. injection Hb as <-. rewrite rev_involutive.
  now rewrite (bcast_rev_idem _ _ E).
Qed.

Lemma broadcast_shapes_nil_l (sh : list nat) :
  broadcast_shapes [] sh = Some sh.
Proof. unfold broadcast_shapes. simpl. now rewrite rev_involutive. Qed.

Lemma broadcast_shapes_one_r (sh : list nat) :
  sh <> [] -> broadcast_shapes sh [1] = Some sh.
Proof.
  intros Hne. unfold broadcast_shapes.
  destruct (rev sh) as [|a r] eqn:E.
  - apply (f_equal (@rev nat)) in E. rewrite rev_involutive in E.
    contradiction.
  - simpl. rewrite bcast_rev_nil_r.
    replace sh with (rev (a :: r)) by (rewrite <- E; apply rev_involutive).
    destruct (Nat.eqb_spec a 1); reflexivity.
Qed.

Lemma broadcast_shapes_one_l (sh : list nat) :
  sh <> [] -> broadcast_shapes [1] sh = Some sh.
Proof.
  intros Hne. unfold broadcast_shapes.
  destruct (rev sh) as [|a r] eqn:E.
  - apply (f_equal (@rev nat)) in E. rewrite rev_involutive in E.
    contradiction.
  - replace sh with (rev (a :: r)) by (rewrite <- E; apply rev_involutive).
    destruct a as [|[|a]]; reflexivity.
Qed.

Lemma broadcast_shapes_rank2 (a b c d : nat) (sh : list nat) :
  broadcast_shapes [a; b] [c; d] = Some sh -> sh <> [].
Proof.
  unfold broadcast_shapes. cbn.
  destruct (a =? c), (a =? 1), (c =? 1), (b =? d), (b =? 1), (d =? 1);
    cbn; intros Hb; try discriminate; injection Hb as <-; discriminate.
Qed.

(** Broadcasting a two-axis shape against [[m; n]] with [m <> 1] keeps
    [m] as the leading axis; two leading axes that differ, neither being
    1, do not broadcast. *)
Lemma broadcast_shapes_rank2_head (a b m n : nat) (sh : list nat) :
  broadcast_shapes [a; b] [m; n] = Some sh -> m <> 1 ->
  exists c, sh = [m; c].
Proof.
  unfold broadcast_shapes. cbn. intros Hb Hm.
  destruct (Nat.eqb_spec a m) as [->|Ham].
  - destruct (b =? n), (b =? 1), (n =? 1); cbn in Hb;
      try discriminate; injection Hb as <-; eexists; reflexivity.
  - destruct (Nat.eqb_spec a 1) as [->|Ha].
    + destruct (b =? n), (b =? 1), (n =? 1); cbn in Hb;
        try discriminate; injection Hb as <-; eexists; reflexivity.
    + destruct (Nat.eqb_spec m 1); [contradiction|discriminate].
Qed.

Lemma broadcast_shapes_head_mismatch (m c k n : nat) :
  m <> k -> m <> 1 -> k <> 1 -> broadcast_shapes [m; c] [k; n] = None.
Proof.
  intros Hmk Hm Hk. unfold broadcast_shapes. cbn.
  destruct (Nat.eqb_spec m k); [contradiction|].
  destruct (Nat.eqb_spec m 1); [contradiction|].
  destruct (Nat.eqb_spec k 1); [contradiction|]. reflexivity.
Qed.

Lemma tabulate_wf (sh : list nat) (f : list nat -> T) :
  wf (tabulate sh f).
Proof. unfold wf, tabulate. simpl. apply tab_length. Qed.

End TensorFacts.

(** Proofs reason about arrays through [shape_tabulate], [get_tabulate]
    and [tabulate_ext] rather than through their row-major layout. *)
Arguments get : simpl never.
Arguments tabulate : simpl never.
Arguments sum_upto : simpl never.

(** ** The closed-form branch, step by step *)

Section ExactBranch.

Context {T : Type} `{Scalar T}.
Variable rng : Type.
Variable draw_normal : list nat -> dtype -> rng -> tensor T * rng.
Variable variational_expectations :
  likelihood (T:=T) -> tensor T -> tensor T -> tensor T -> M rng (tensor T).

Ltac case_results :=
  repeat match goal with
         | |- context [match ?r with Ok _ => _ | Raise _ => _ end] =>
             destruct r; try reflexivity
         end.

Lemma Gaussian_exact_run (self : likelihood) (v : T) (Fmu L Y : tensor T)
    (st : rng) :
  exact self = Some true ->
  variance self = Some v ->
  Gaussian_stochastic_expectations draw_normal variational_expectations
    self Fmu L Y st = (exact_value v Fmu L Y, st).
Proof.
  intros Hex Hv.
  unfold Gaussian_stochastic_expectations, exact_value, Fvar_of, closed_form,
    getattr_exact, getattr_variance, bind, lift, ret, rbind.
  rewrite Hex, Hv. unfold ret.
  case_results.
Qed.

(** The same for [Poisson.stochastic_expectations] on an instance that
    has been given a [variance] attribute. *)
Lemma Poisson_exact_variance_run (self : likelihood) (v : T)
    (Fmu L Y : tensor T) (st : rng) :
  exact self = Some true ->
  variance self = Some v ->
  Poisson_stochastic_expectations draw_normal variational_expectations
    self Fmu L Y st = (exact_value v Fmu L Y, st).
Proof.
  intros Hex Hv.
  unfold Poisson_stochastic_expectations, exact_value, Fvar_of, closed_form,
    getattr_exact, getattr_variance, bind, lift, ret, rbind.
  rewrite Hex, Hv. unfold ret.
  case_results.
Qed.

Lemma Fvar_of_value (L : tensor T) (N K M_ : nat) :
  shape L = [N; K; M_] ->
  Fvar_of L =
  Ok (tabulate [M_; N] (fun idx => cov_diag L (nth 1 idx 0) (nth 0 idx 0))).
Proof.
  intros HL. unfold Fvar_of, cov_diag, tf_transpose_perm, rank. rewrite HL.
  cbn. unfold tf_batch_matmul, rank. rewrite !shape_tabulate.
  cbn. rewrite !Nat.eqb_refl. cbn.
  unfold tf_batch_matrix_diag_part, rank. rewrite !shape_tabulate.
  cbn. rewrite Nat.eqb_refl. cbn.
  f_equal. apply tabulate_ext. intros idx Hr.
  apply in_range_2 in Hr. destruct Hr as (m & n & -> & Hm & Hn). cbn.
  rewrite get_tabulate by (apply in_range_3_intro; assumption). cbn.
  apply sum_upto_ext. intros k Hk.
  rewrite get_tabulate by (apply in_range_3_intro; assumption). cbn.
  reflexivity.
Qed.

End ExactBranch.

(** ** Properties of the likelihood classes *)

Section Claims.

Context {T : Type} `{Scalar T}.
Variable rng : Type.
Variable draw_normal : list nat -> dtype -> rng -> tensor T * rng.
Variable variational_expectations :
  likelihood (T:=T) -> tensor T -> tensor T -> tensor T -> M rng (tensor T).

Variable densities_gaussian :
  tensor T -> tensor T -> tensor T -> result (tensor T).
Variable densities_poisson : tensor T -> tensor T -> result (tensor T).

Local Abbreviation run_se :=
  (stochastic_expectations draw_normal variational_expectations).

(** The sampling statements never produce [X]: whatever the inputs, the
    call of [tf.tile] on the four-axis array with three multiples is
    rejected. *)
Lemma sample_X_raises (self : likelihood) (Fmu L : tensor T) (st : rng) :
  fst (sample_X draw_normal self Fmu L st) = Raise ValueError.
Proof.
  unfold sample_X, assign_rndn, assign_L, bind, lift, tf_random_normal,
    tf_shape_at.
  destruct (nth_error (shape L) 2) as [m|] eqn:E2; [|reflexivity].
  destruct (nth_error (shape L) 1) as [n|] eqn:E1; [|reflexivity].
  destruct (draw_normal _ _ st) as [rndn st'].
  unfold tf_transpose_perm.
  destruct (is_perm [2; 0; 1] (rank L)); [|reflexivity].
  unfold tf_expand_dims. cbn [Nat.leb].
  unfold tf_tile at 1. unfold rank at 1. rewrite shape_tabulate.
  reflexivity.
Qed.

Lemma base_se_raises (self : likelihood) (Fmu L Y : tensor T) (st : rng) :
  fst (StochasticLikelihood_stochastic_expectations
         draw_normal variational_expectations self Fmu L Y st)
  = Raise ValueError.
Proof.
  unfold StochasticLikelihood_stochastic_expectations, bind.
  pose proof (sample_X_raises self Fmu L st) as Hs.
  destruct (sample_X draw_normal self Fmu L st) as [[x|e] st']; simpl in Hs.
  - discriminate.
  - simpl. exact Hs.
Qed.

(** No call of [stochastic_expectations] reaches the inherited
    [variational_expectations]: the outcome is the same whatever that
    function is. *)
Lemma variational_expectations_unreached
    (ve' : likelihood (T:=T) -> tensor T -> tensor T -> tensor T ->
           M rng (tensor T))
    (self : likelihood) (Fmu L Y : tensor T) (st : rng) :
  run_se self Fmu L Y st
  = stochastic_expectations draw_normal ve' self Fmu L Y st.
Proof.
  assert (Hbase : forall F st0,
    StochasticLikelihood_stochastic_expectations
      draw_normal variational_expectations self F L Y st0
    = StochasticLikelihood_stochastic_expectations
        draw_normal ve' self F L Y st0).
  { intros F st0. unfold StochasticLikelihood_stochastic_expectations, bind.
    pose proof (sample_X_raises self F L st0) as Hs.
    destruct (sample_X draw_normal self F L st0) as [[x|e] st1];
      [discriminate|reflexivity]. }
  unfold stochastic_expectations. destruct (class_of self).
  - apply Hbase.
  - unfold Gaussian_stochastic_expectations, getattr_exact, bind.
    destruct (exact self) as [[|]|]; [reflexivity|apply Hbase|reflexivity].
  - unfold Poisson_stochastic_expectations, getattr_exact, getattr_invlink,
      bind, lift.
    destruct (exact self) as [[|]|]; [reflexivity| |reflexivity].
    unfold ret, raise. destruct (invlink self) as [f|]; [|reflexivity].
    destruct (f Fmu) as [F'|e]; [apply Hbase|reflexivity].
Qed.

(** The closed-form branch of a [Poisson] instance reaches the lookup of
    [self.variance] whenever [L] has three axes. *)
Lemma Poisson_exact_run (invlink : tensor T -> result (tensor T))
    (ns : nat) (Fmu L Y : tensor T) (st : rng) :
  rank L = 3 ->
  Poisson_stochastic_expectations draw_normal variational_expectations
    (Poisson_init invlink ns true) Fmu L Y st
  = (Raise (AttributeError "variance"), st).
Proof.
  intros Hr.
  unfold Poisson_stochastic_expectations, getattr_exact, getattr_variance,
    bind, lift, ret, raise. cbn [exact variance Poisson_init].
  unfold tf_transpose_perm at 1. rewrite Hr. cbn [is_perm].
  change (is_perm [2; 0; 1] 3) with true. cbn iota.
  unfold tf_batch_matmul, rank. rewrite !shape_tabulate.
  cbn. rewrite !Nat.eqb_refl. cbn.
  unfold tf_batch_matrix_diag_part, rank. rewrite !shape_tabulate.
  cbn. rewrite Nat.eqb_refl. cbn.
  unfold tf_transpose, tf_transpose_perm. rewrite !is_perm_rev_seq.
  reflexivity.
Qed.


(** C5. The sampling statements of the generic path never yield the
    sample array [X].  For [L] of shape [[N, K, M]] the innovations are
    drawn, with shape [[S, M, K, 1]] and [float64]; then, for every
    instance, input and stream state, [ValueError] is raised, because
    [tf.tile] is given three multiples for the four-axis array
    [[1, M, N, K]].  The statement that would assign [X] cannot return
    either: for [Fmu] of two axes it raises [AttributeError], there
    being no function [tf.stranspose]. *)
Theorem correlated_sampling_never_yields
    (self : likelihood) (Fmu L : tensor T) (st : rng) :
  fst (sample_X draw_normal self Fmu L st) = Raise ValueError
  /\ (forall t st', sample_X draw_normal self Fmu L st <> (Ok t, st'))
  /\ (forall (N K M_ : nat) (d : list T),
         sample_X draw_normal self Fmu (mkTensor [N; K; M_] d) st
         = (Raise ValueError,
            snd (draw_normal [num_samples self; M_; K; 1] float64 st)))
  /\ (forall (N M_ : nat) (d : list T) (L' rndn : tensor T),
         assign_X (rng:=rng) self (mkTensor [N; M_] d) L' rndn st
         = (Raise (AttributeError "stranspose"), st)).
Proof.
  pose proof (sample_X_raises self Fmu L st) as Hs.
  split; [|split; [|split]].
  - exact Hs.
  - intros t st' Heq. rewrite Heq in Hs. discriminate.
  - intros N K M_ d.
    unfold sample_X, assign_rndn, assign_L, bind, lift, tf_random_normal,
      tf_shape_at.
    cbn [shape nth_error].
    destruct (draw_normal _ _ st) as [rndn st']. reflexivity.
  - intros N M_ d L' rndn. reflexivity.
Qed.

(** C9. On a [Poisson] instance built with [exact=False], for every
    input, [stochastic_expectations] raises the exception of
    [invlink(Fmu)] if that call raises, and otherwise the [ValueError]
    of the sampling statements (always so for the default [tf.exp]);
    [self.transform] is not reached, so the outcome is not its
    [NotImplementedError]. *)
Theorem poisson_stochastic_path_outcome
    (link : tensor T -> result (tensor T)) (ns : nat)
    (Fmu L Y : tensor T) (st : rng) :
  fst (run_se (Poisson_init link ns false) Fmu L Y st)
  = match link Fmu with
    | Ok _ => Raise ValueError
    | Raise e => Raise e
    end
  /\ fst (run_se (Poisson_init tf_exp ns false) Fmu L Y st)
     = Raise ValueError.
Proof.
  assert (Hgen : forall f,
    fst (run_se (Poisson_init f ns false) Fmu L Y st)
    = match f Fmu with
      | Ok _ => Raise ValueError
      | Raise e => Raise e
      end).
  { intros f.
    unfold stochastic_expectations, Poisson_stochastic_expectations,
      getattr_exact, getattr_invlink, bind, lift, ret.
    cbn [class_of exact invlink Poisson_init].
    destruct (f Fmu) as [F'|e]; [|reflexivity].
    apply (base_se_raises (Poisson_init f ns false) F' L Y st). }
  split; [apply Hgen|]. rewrite Hgen. reflexivity.
Qed.

Lemma tf_binop_shape (f : T -> T -> T) (a b : tensor T) (sh : list nat) :
  broadcast_shapes (shape a) (shape b) = Some sh ->
  exists t, tf_binop f a b = Ok t /\ shape t = sh.
Proof.
  intros Hb. unfold tf_binop. rewrite Hb. eexists. split; reflexivity.
Qed.

Lemma tf_binop_mismatch (f : T -> T -> T) (a b : tensor T) :
  broadcast_shapes (shape a) (shape b) = None ->
  tf_binop f a b = Raise ValueError.
Proof. intros Hb. unfold tf_binop. now rewrite Hb. Qed.

Lemma tf_transpose_shape2 (t : tensor T) (a b : nat) :
  shape t = [a; b] ->
  exists t', tf_transpose t = Ok t' /\ shape t' = [b; a].
Proof.
  intros Ht. unfold tf_transpose, tf_transpose_perm, rank. rewrite Ht.
  cbn. eexists. split; reflexivity.
Qed.

Ltac step_binop Hsh :=
  match goal with
  | |- context [tf_binop ?f ?a ?b] =>
      let t := fresh "t" in
      let E := fresh "E" in
      let Ht := fresh "Ht" in
      destruct (@tf_binop_shape f a b _ Hsh) as (t & E & Ht);
      rewrite E; cbn [rbind]
  end.

(** The returned expression succeeds exactly when the transposed [Y]
    and [Fmu] broadcast against each other, and then has the broadcast
    shape. *)
Lemma closed_form_shape (v Fvar Fmu' Y' : tensor T) (m n a b : nat)
    (sh : list nat) :
  shape v = [1] -> shape Fvar = [m; n] -> shape Fmu' = [m; n] ->
  shape Y' = [a; b] ->
  broadcast_shapes [a; b] [m; n] = Some sh ->
  exists t, closed_form v Fvar Fmu' Y' = Ok t /\ shape t = sh.
Proof.
  intros Hv HFvar HFmu HY Hb.
  pose proof (broadcast_shapes_rank2 _ _ _ _ Hb) as Hne.
  unfold closed_form, tf_log, tf_square, tf_map, tf_mul, tf_sub, tf_add, tf_div.
  cbn [rbind].
  assert (H1 : broadcast_shapes (shape (scalar s_half))
                 (shape (tabulate (shape v) (fun idx => s_log (get v idx))))
               = Some [1]) by (rewrite shape_tabulate, Hv; reflexivity).
  step_binop H1.
  assert (H2 : broadcast_shapes
                 (shape (scalar (s_mul (s_neg s_half)
                                       (s_log (s_mul s_two s_pi)))))
                 (shape t) = Some [1]) by (rewrite Ht; reflexivity).
  step_binop H2.
  assert (H3 : broadcast_shapes (shape Y') (shape Fmu') = Some sh)
    by (rewrite HY, HFmu; exact Hb).
  step_binop H3.
  match goal with
  | |- context [tf_binop s_add ?x Fvar] =>
      assert (H4 : broadcast_shapes (shape x) (shape Fvar) = Some sh)
        by (rewrite shape_tabulate, Ht1, HFvar;
            exact (broadcast_shapes_idem _ _ Hb))
  end.
  step_binop H4.
  assert (H5 : broadcast_shapes (shape (scalar s_half)) (shape t2) = Some sh)
    by (rewrite Ht2; apply broadcast_shapes_nil_l).
  step_binop H5.
  assert (H6 : broadcast_shapes (shape t3) (shape v) = Some sh)
    by (rewrite Ht3, Hv; now apply broadcast_shapes_one_r).
  step_binop H6.
  assert (H7 : broadcast_shapes (shape t0) (shape t4) = Some sh)
    by (rewrite Ht0, Ht4; now apply broadcast_shapes_one_l).
  step_binop H7.
  eexists. split; [reflexivity|assumption].
Qed.

(** With [Fvar] of shape [[k; n]], the transposed [Fmu] of shape
    [[m; n]] and a transposed [Y] of two axes, the returned expression
    is rejected when [m] and [k] differ and neither is 1: either
    [Y - Fmu] does not broadcast, or [tf.square(Y - Fmu) + Fvar] does
    not. *)
Lemma closed_form_mismatch (v Fvar Fmu' Y' : tensor T) (m n k a b : nat) :
  shape v = [1] -> shape Fvar = [k; n] -> shape Fmu' = [m; n] ->
  shape Y' = [a; b] ->
  m <> k -> m <> 1 -> k <> 1 ->
  closed_form v Fvar Fmu' Y' = Raise ValueError.
Proof.
  intros Hv HFvar HFmu HY Hmk Hm Hk.
  unfold closed_form, tf_log, tf_square, tf_map, tf_mul, tf_sub, tf_add, tf_div.
  cbn [rbind].
  assert (H1 : broadcast_shapes (shape (scalar s_half))
                 (shape (tabulate (shape v) (fun idx => s_log (get v idx))))
               = Some [1]) by (rewrite shape_tabulate, Hv; reflexivity).
  step_binop H1.
  assert (H2 : broadcast_shapes
                 (shape (scalar (s_mul (s_neg s_half)
                                       (s_log (s_mul s_two s_pi)))))
                 (shape t) = Some [1]) by (rewrite Ht; reflexivity).
  step_binop H2.
  destruct (broadcast_shapes (shape Y') (shape Fmu')) as [sh|] eqn:H3.
  - step_binop H3.
    rewrite HY, HFmu in H3.
    destruct (@broadcast_shapes_rank2_head a b m n sh H3 Hm) as (c & ->).
    rewrite tf_binop_mismatch; [reflexivity|].
    rewrite shape_tabulate, Ht1, HFvar.
    now apply broadcast_shapes_head_mismatch.
  - rewrite tf_binop_mismatch by exact H3. reflexivity.
Qed.

(** Explicit values of the operations used by the closed-form branch. *)
Lemma tf_binop_value (f : T -> T -> T) (a b : tensor T) (sh : list nat) :
  broadcast_shapes (shape a) (shape b) = Some sh ->
  tf_binop f a b =
  Ok (tabulate sh (fun idx => f (get a (bidx (shape a) idx))
                                (get b (bidx (shape b) idx)))).
Proof. intros Hb. unfold tf_binop. now rewrite Hb. Qed.

Lemma tf_transpose_value2 (t : tensor T) (a b : nat) :
  shape t = [a; b] ->
  tf_transpose t =
  Ok (tabulate [b; a] (fun idx => get t [nth 1 idx 0; nth 0 idx 0])).
Proof.
  intros Ht. unfold tf_transpose, tf_transpose_perm, rank. rewrite Ht.
  reflexivity.
Qed.

Lemma get_scalar (c : T) (idx : list nat) : get (scalar c) idx = c.
Proof. unfold get, scalar. simpl. reflexivity. Qed.

Lemma get_singleton (c : T) : get (mkTensor [1] [c]) [0] = c.
Proof. reflexivity. Qed.

(** The closed-form value entry by entry: the entry [(m, n)] of the
    result is the formula at [Y[n, m]], [Fmu[n, m]] and the diagonal
    entry of the covariance. *)
Lemma exact_value_entries (v : T) (Fmu L Y : tensor T) (N M_ : nat) :
  shape Fmu = [N; M_] -> shape L = [N; N; M_] -> shape Y = [N; M_] ->
  exists t,
    exact_value v Fmu L Y = Ok t
    /\ shape t = [M_; N]
    /\ forall n m, n < N -> m < M_ ->
         get t [m; n] =
         gaussian_formula v (get Y [n; m]) (get Fmu [n; m]) (cov_diag L n m).
Proof.
  intros HF HL HY.
  unfold exact_value. rewrite (Fvar_of_value L HL). cbn [rbind].
  rewrite (tf_transpose_value2 Fmu HF), (tf_transpose_value2 Y HY).
  cbn [rbind].
  unfold closed_form, tf_log, tf_square, tf_map, tf_mul, tf_sub, tf_add, tf_div.
  cbn [rbind shape].
  rewrite (@tf_binop_value s_mul _ _ [1]) by reflexivity. cbn [rbind].
  rewrite (@tf_binop_value s_sub _ _ [1]) by reflexivity. cbn [rbind].
  rewrite (@tf_binop_value s_sub _ _ [M_; N])
    by (rewrite !shape_tabulate; apply broadcast_shapes_refl).
  cbn [rbind]. rewrite !shape_tabulate.
  rewrite (@tf_binop_value s_add _ _ [M_; N])
    by (rewrite !shape_tabulate; apply broadcast_shapes_refl).
  cbn [rbind].
  rewrite (@tf_binop_value s_mul _ _ [M_; N])
    by (rewrite !shape_tabulate; apply broadcast_shapes_nil_l).
  cbn [rbind].
  rewrite (@tf_binop_value s_div _ _ [M_; N])
    by (rewrite !shape_tabulate; apply broadcast_shapes_one_r; discriminate).
  cbn [rbind].
  rewrite (@tf_binop_value s_sub _ _ [M_; N])
    by (rewrite !shape_tabulate; apply broadcast_shapes_one_l; discriminate).
  eexists. split; [reflexivity|]. split; [reflexivity|].
  intros n m Hn Hm.
  assert (Hr : in_range [m; n] [M_; N]) by (repeat constructor; assumption).
  assert (H0 : in_range [0] [1]) by (repeat constructor).
  rewrite !shape_tabulate. cbn [shape scalar].
  repeat first
    [ rewrite (bidx_self Hr)
    | progress change (bidx [] [m; n]) with (@nil nat)
    | progress change (bidx [1] [m; n]) with [0]
    | progress change (bidx [] [0]) with (@nil nat)
    | progress change (bidx [1] [0]) with [0]
    | rewrite get_tabulate by first [exact Hr | exact H0]
    | rewrite get_scalar
    | rewrite get_singleton ].
  reflexivity.
Qed.

(** C2. On a [Poisson] instance built with [exact=True] the constructor
    leaves [variance] undefined; [stochastic_expectations] is the very
    expression of the [Gaussian] closed-form branch: it agrees with
    [Gaussian.stochastic_expectations] applied to the same instance, its
    evaluation stops at the lookup of [self.variance] with an
    [AttributeError], and once a [variance] attribute is assigned it
    returns what a [Gaussian] instance with that variance returns, the
    array with entries [-0.5*log(2 pi) - 0.5*log(variance)
    - 0.5*((Y - Fmu)^2 + Fvar) / variance], [Fvar] being the diagonal of
    [L L^T] per output. *)
Theorem poisson_exact_reuses_gaussian_formula
    (link : tensor T -> result (tensor T)) (ns : nat)
    (Fmu L Y : tensor T) (N M_ : nat) (st : rng) :
  shape Fmu = [N; M_] -> shape L = [N; N; M_] -> shape Y = [N; M_] ->
  let p := Poisson_init link ns true in
  variance p = None
  /\ run_se p Fmu L Y st
     = Gaussian_stochastic_expectations draw_normal variational_expectations
         p Fmu L Y st
  /\ run_se p Fmu L Y st = (Raise (AttributeError "variance"), st)
  /\ (forall v : T, exists t,
         run_se (set_variance v p) Fmu L Y st = (Ok t, st)
         /\ run_se (set_variance v (Gaussian_init ns true)) Fmu L Y st
            = (Ok t, st)
         /\ shape t = [M_; N]
         /\ forall n m, n < N -> m < M_ ->
              get t [m; n] =
              gaussian_formula v (get Y [n; m]) (get Fmu [n; m])
                               (cov_diag L n m)).
Proof.
  intros HF HL HY p.
  split; [reflexivity|]. split; [reflexivity|]. split.
  - unfold stochastic_expectations; cbn [class_of p Poisson_init].
    apply Poisson_exact_run. unfold rank. now rewrite HL.
  - intros v.
    destruct (exact_value_entries v Fmu L Y HF HL HY) as (t & Ht & Hsh & Hget).
    exists t. unfold stochastic_expectations.
    cbn [class_of set_variance p Poisson_init Gaussian_init].
    rewrite (@Poisson_exact_variance_run _ _ _ draw_normal
               variational_expectations _ v) by reflexivity.
    rewrite (@Gaussian_exact_run _ _ _ draw_normal variational_expectations _ v)
      by reflexivity.
    rewrite Ht. repeat split; assumption.
Qed.

(** C1 (amended). On the closed-form branch of [Gaussian], for [Fmu] of
    shape [[N, M]], [L] of shape [[N, N, M]] and [Y] of shape
    [[N', M']] whose transposed shape [[M', N']] broadcasts against
    [[M, N]], [stochastic_expectations] returns an array of that
    broadcast shape; when [Y] has the shape [[N, M]] of [Fmu] this is
    [[M, N]], the shape of [Y] with its two axes exchanged. *)
Theorem gaussian_exact_result_shape
    (ns : nat) (v : T) (Fmu L Y : tensor T) (N M_ N' M' : nat)
    (sh : list nat) (st : rng) :
  shape Fmu = [N; M_] ->
  shape L = [N; N; M_] ->
  shape Y = [N'; M'] ->
  broadcast_shapes [M'; N'] [M_; N] = Some sh ->
  exists t,
    run_se (set_variance v (Gaussian_init ns true)) Fmu L Y st = (Ok t, st)
    /\ shape t = sh
    /\ (shape Y = shape Fmu -> shape t = rev (shape Y)).
Proof.
  intros HF HL HY Hb.
  unfold stochastic_expectations. cbn [class_of set_variance Gaussian_init].
  rewrite (@Gaussian_exact_run _ _ _ draw_normal variational_expectations _ v)
    by reflexivity.
  unfold exact_value. rewrite (Fvar_of_value L HL). cbn [rbind].
  destruct (tf_transpose_shape2 Fmu HF) as (Fmu' & -> & HF').
  destruct (tf_transpose_shape2 Y HY) as (Y' & -> & HY'). cbn [rbind].
  destruct (@closed_form_shape (mkTensor [1] [v])
              (tabulate [M_; N]
                 (fun idx => cov_diag L (nth 1 idx 0) (nth 0 idx 0)))
              Fmu' Y' M_ N M' N' sh) as (t & -> & Ht);
    try assumption; try reflexivity.
  exists t. split; [reflexivity|]. split; [exact Ht|].
  intros Heq. rewrite HY, HF in Heq. injection Heq as -> ->.
  rewrite broadcast_shapes_refl in Hb. injection Hb as <-.
  rewrite Ht, HY. reflexivity.
Qed.

(** C3 (amended). On the closed-form branch of [Gaussian], for [Fmu] of
    shape [[N, M]], [L] of shape [[N, N, K]] with [M] and [K] different
    and both different from 1 (so for [Fmu] of shape [[5, 2]] and [L] of
    shape [[5, 5, 3]]) and [Y] of two axes, [stochastic_expectations]
    raises the shape error [ValueError] of a broadcast operation,
    returns nothing and leaves the random stream untouched. *)
Theorem gaussian_exact_rejects_output_mismatch
    (ns : nat) (v : T) (Fmu L Y : tensor T) (N M_ K N' M' : nat) (st : rng) :
  shape Fmu = [N; M_] ->
  shape L = [N; N; K] ->
  shape Y = [N'; M'] ->
  M_ <> K -> M_ <> 1 -> K <> 1 ->
  run_se (set_variance v (Gaussian_init ns true)) Fmu L Y st
  = (Raise ValueError, st).
Proof.
  intros HF HL HY Hmk Hm Hk.
  unfold stochastic_expectations. cbn [class_of set_variance Gaussian_init].
  rewrite (@Gaussian_exact_run _ _ _ draw_normal variational_expectations _ v)
    by reflexivity.
  unfold exact_value. rewrite (Fvar_of_value L HL). cbn [rbind].
  destruct (tf_transpose_shape2 Fmu HF) as (Fmu' & -> & HF').
  destruct (tf_transpose_shape2 Y HY) as (Y' & -> & HY'). cbn [rbind].
  rewrite (@closed_form_mismatch (mkTensor [1] [v]) _ Fmu' Y' M_ N K M' N');
    try assumption; reflexivity.
Qed.

(** C10. On the closed-form branch of [Gaussian], two factors [L1] and
    [L2] of shape [[N, N, M]] whose covariances [L[:,:,m] L[:,:,m]^T]
    have the same diagonal for every output [m] give the same outcome of
    [stochastic_expectations], for every [Fmu] and [Y]. *)
Theorem gaussian_exact_depends_on_cov_diag
    (ns : nat) (v : T) (Fmu Y L1 L2 : tensor T) (N M_ : nat) (st : rng) :
  shape L1 = [N; N; M_] ->
  shape L2 = [N; N; M_] ->
  (forall n m, n < N -> m < M_ -> cov_diag L1 n m = cov_diag L2 n m) ->
  run_se (set_variance v (Gaussian_init ns true)) Fmu L1 Y st
  = run_se (set_variance v (Gaussian_init ns true)) Fmu L2 Y st.
Proof.
  intros HL1 HL2 Hdiag.
  unfold stochastic_expectations. cbn [class_of set_variance Gaussian_init].
  rewrite !(@Gaussian_exact_run _ _ _ draw_normal variational_expectations _ v)
    by reflexivity.
  unfold exact_value.
  rewrite (Fvar_of_value L1 HL1), (Fvar_of_value L2 HL2).
  replace (tabulate [M_; N]
             (fun idx => cov_diag L1 (nth 1 idx 0) (nth 0 idx 0)))
    with (tabulate [M_; N]
            (fun idx => cov_diag L2 (nth 1 idx 0) (nth 0 idx 0)));
    [reflexivity|].
  apply tabulate_ext. intros idx Hr.
  apply in_range_2 in Hr. destruct Hr as (m & n & -> & Hm & Hn).
  cbn [nth]. symmetry. now apply Hdiag.
Qed.

(** [estimate_mu_var] on an array with a sample axis: it returns, does
    not touch the stream, and yields the two moments index by index. *)
Lemma estimate_mu_var_run (self : likelihood) (G : tensor T) (S_ : nat)
    (sh : list nat) (st : rng) :
  shape G = S_ :: sh ->
  exists Gmu Gvar,
    estimate_mu_var (rng:=rng) self G st = (Ok (Gmu, Gvar), st)
    /\ shape Gmu = sh /\ shape Gvar = sh
    /\ (forall idx, in_range idx sh ->
          get Gmu idx = mean_upto S_ (fun s => get G (s :: idx)))
    /\ (forall idx, in_range idx sh ->
          get Gvar idx =
          mean_upto S_ (fun s =>
            s_mul (s_sub (get G (s :: idx)) (get Gmu idx))
                  (s_sub (get G (s :: idx)) (get Gmu idx)))).
Proof.
  intros HG.
  unfold estimate_mu_var, bind, lift, ret, tf_reduce_mean0. rewrite HG.
  unfold tf_sub, tf_binop. rewrite shape_tabulate, HG, broadcast_shapes_cons.
  unfold tf_square, tf_map, tf_reduce_mean0. rewrite !shape_tabulate.
  eexists. eexists. split; [reflexivity|].
  split; [reflexivity|]. split; [reflexivity|]. split.
  - intros idx Hr. now rewrite get_tabulate.
  - intros idx Hr. rewrite get_tabulate by assumption.
    unfold mean_upto. f_equal. apply sum_upto_ext. intros s Hs.
    assert (Hr' : in_range (s :: idx) (S_ :: sh)) by (constructor; assumption).
    rewrite get_tabulate by assumption.
    rewrite get_tabulate by assumption.
    rewrite (bidx_self Hr'), (bidx_tail s Hr).
    reflexivity.
Qed.
End Claims.

(** ** Numerical bounds on [pi] and [log (2 pi)] *)

Section Numerics.

Local Open Scope R_scope.

Lemma PI_bounds : 3141592 / 1000000 < PI < 3141593 / 1000000.
Proof.
  pose proof (PI_2_3_7_ineq 3) as Hpi.
  unfold sum_f_R0, tg_alt, PI_2_3_7_tg, Ratan_seq in Hpi.
  simpl in Hpi. lra.
Qed.

(** From a lower bound of [exp x] to one of [exp (2 x)]. *)
Lemma exp_square_step (a a' x : R) :
  0 <= a -> a < exp x -> a' <= a * a -> a' < exp (2 * x).
Proof.
  intros Ha Hlt Hsq.
  replace (2 * x) with (x + x) by ring. rewrite exp_plus.
  apply Rle_lt_trans with (1 := Hsq).
  apply Rmult_le_0_lt_compat; assumption.
Qed.

Ltac sq_step q :=
  match goal with
  | Hlt : ?a < exp ?x |- _ =>
      let Hq := fresh "Hq" in
      assert (Hq : q < exp (2 * x))
        by (apply (@exp_square_step a q x); [lra | exact Hlt | lra]);
      clear Hlt
  end.

(** [exp c > (1 + c / 2^24)^(2^24)], the power being bounded from below
    by twenty-four rounded squarings. *)
Lemma exp_1837878_lower : 6283186 / 1000000 < exp (1837878 / 1000000).
Proof.
  assert (H0 : 1 + 1837878 / 1000000 / 16777216 < exp (1837878 / 1000000 / 16777216))
    by (apply exp_ineq1; lra).
  sq_step (100000021909214266135 / 100000000000000000000).
  sq_step (100000043818433332406 / 100000000000000000000).
  sq_step (100000087636885865362 / 100000000000000000000).
  sq_step (100000175273848532961 / 100000000000000000000).
  sq_step (100000350548004275141 / 100000000000000000000).
  sq_step (100000701097237389315 / 100000000000000000000).
  sq_step (100001402199390151992 / 100000000000000000000).
  sq_step (100002804418441935281 / 100000000000000000000).
  sq_step (100005608915531498536 / 100000000000000000000).
  sq_step (100011218145662331466 / 100000000000000000000).
  sq_step (100022437549792583944 / 100000000000000000000).
  sq_step (100044880134021574834 / 100000000000000000000).
  sq_step (100089780410307447613 / 100000000000000000000).
  sq_step (100179641425835644962 / 100000000000000000000).
  sq_step (100359605562090052559 / 100000000000000000000).
  sq_step (100720504285782966144 / 100000000000000000000).
  sq_step (101446199835824248509 / 100000000000000000000).
  sq_step (102913314611299877851 / 100000000000000000000).
  sq_step (105911503242843889285 / 100000000000000000000).
  sq_step (112172465191589316760 / 100000000000000000000).
  sq_step (125826619471583168939 / 100000000000000000000).
  sq_step (158323381676465926721 / 100000000000000000000).
  sq_step (250662931854719067571 / 100000000000000000000).
  sq_step (628319054060035350484 / 100000000000000000000).
  match goal with
  | Hq : _ < exp ?x |- _ =>
      replace x with (1837878 / 1000000) in Hq by field
  end.
  lra.
Qed.

Lemma exp_1837876_upper : exp (1837876 / 1000000) < 6283184 / 1000000.
Proof.
  assert (H0 : 1 + - (1837876 / 1000000 / 16777216)
               < exp (- (1837876 / 1000000 / 16777216)))
    by (apply exp_ineq1; lra).
  sq_step (99999978090811975788 / 100000000000000000000).
  sq_step (99999956181628751701 / 100000000000000000000).
  sq_step (99999912363276703898 / 100000000000000000000).
  sq_step (99999824726630209748 / 100000000000000000000).
  sq_step (99999649453567627037 / 100000000000000000000).
  sq_step (99999298908364082086 / 100000000000000000000).
  sq_step (99998597821643458991 / 100000000000000000000).
  sq_step (99997195662947959417 / 100000000000000000000).
  sq_step (99994391404538981848 / 100000000000000000000).
  sq_step (99988783123641394149 / 100000000000000000000).
  sq_step (99977567505465940740 / 100000000000000000000).
  sq_step (99955140043099991685 / 100000000000000000000).
  sq_step (99910300210357314076 / 100000000000000000000).
  sq_step (99820680881237247573 / 100000000000000000000).
  sq_step (99641683315938033647 / 100000000000000000000).
  sq_step (99284650540336838924 / 100000000000000000000).
  sq_step (98574418329168081613 / 100000000000000000000).
  sq_step (97169159489338282467 / 100000000000000000000).
  sq_step (94418455558644599870 / 100000000000000000000).
  sq_step (89148447500797453397 / 100000000000000000000).
  sq_step (79474456918024397145 / 100000000000000000000).
  sq_step (63161893024149159584 / 100000000000000000000).
  sq_step (39894247303940622679 / 100000000000000000000).
  sq_step (15915509679479736413 / 100000000000000000000).
  match goal with
  | Hq : _ < exp ?x |- _ =>
      replace x with (- (1837876 / 1000000)) in Hq by field;
      rewrite exp_Ropp in Hq; rename Hq into Hinv
  end.
  pose proof (exp_pos (1837876 / 1000000)) as Hpos.
  apply Rmult_lt_reg_r with (r := / exp (1837876 / 1000000)).
  - now apply Rinv_0_lt_compat.
  - rewrite Rinv_r by lra. lra.
Qed.

Lemma ln_2PI_bounds : 1837876 / 1000000 < ln (2 * PI) < 1837878 / 1000000.
Proof.
  pose proof PI_bounds as [Hlo Hhi].
  assert (Hpos : 0 < 2 * PI) by lra.
  split.
  - rewrite <- (ln_exp (1837876 / 1000000)).
    apply ln_increasing; [apply exp_pos|].
    pose proof exp_1837876_upper. lra.
  - rewrite <- (ln_exp (1837878 / 1000000)).
    apply ln_increasing; [assumption|].
    pose proof exp_1837878_lower. lra.
Qed.

End Numerics.

(** ** Properties over the real numbers *)

Section RealClaims.

Variable rng : Type.
Variable draw_normal : list nat -> dtype -> rng -> tensor R * rng.
Variable variational_expectations :
  likelihood (T:=R) -> tensor R -> tensor R -> tensor R -> M rng (tensor R).

Local Open Scope R_scope.

(** C6. For a sample array [G] of shape [S :: sh], [estimate_mu_var]
    returns [(Gmu, Gvar)], both of shape [sh], where [Gmu] is the mean
    of [G] over axis 0 and [Gvar] the mean of [(G - Gmu)^2] over axis 0;
    with a single sample the call returns as well and every entry of
    [Gvar] is zero. *)
Theorem estimate_mu_var_moments
    (self : likelihood (T:=R)) (G : tensor R) (S_ : nat) (sh : list nat)
    (st : rng) :
  shape G = S_ :: sh ->
  exists Gmu Gvar,
    estimate_mu_var self G st = (Ok (Gmu, Gvar), st)
    /\ shape Gmu = sh /\ shape Gvar = sh
    /\ (forall idx, in_range idx sh ->
          get Gmu idx = mean_upto S_ (fun s => get G (s :: idx)))
    /\ (forall idx, in_range idx sh ->
          get Gvar idx =
          mean_upto S_ (fun s =>
            (get G (s :: idx) - get Gmu idx)
            * (get G (s :: idx) - get Gmu idx)))
    /\ (S_ = 1%nat -> forall idx, in_range idx sh -> get Gvar idx = 0).
Proof.
  intros HG.
  destruct (estimate_mu_var_run (rng:=rng) self G st HG)
    as (Gmu & Gvar & Hrun & Hsmu & Hsvar & Hmu & Hvar).
  exists Gmu, Gvar. repeat (split; [assumption|]).
  intros -> idx Hr.
  rewrite (Hvar idx Hr), (Hmu idx Hr).
  unfold mean_upto, sum_upto. simpl. field.
Qed.

(** C4. [Gaussian] with [variance = 1.0] and [exact=True], on the single
    point [Fmu = [[0.0]]], [L = [[[1.0]]]], [Y = [[0.0]]], returns the
    one-entry array [[r]] of shape [[1, 1]] with
    [r = -0.5 * log (2 pi) - 0.5], which lies within [1e-6] of
    [-1.4189385]. *)
Theorem gaussian_exact_single_point (ns : nat) (st : rng) :
  exists r : R,
    stochastic_expectations draw_normal variational_expectations
      (Gaussian_init ns true)
      (mkTensor [1; 1]%nat [0]) (mkTensor [1; 1; 1]%nat [1])
      (mkTensor [1; 1]%nat [0]) st
    = (Ok (mkTensor [1; 1]%nat [r]), st)
    /\ r = - (1 / 2) * ln (2 * PI) - 1 / 2
    /\ Rabs (r - (- (1 / 2) * ln (2 * PI) - 1 / 2)) < 1 / 1000000
    /\ Rabs (r - (- 14189385 / 10000000)) < 1 / 1000000.
Proof.
  unfold stochastic_expectations. cbn [class_of Gaussian_init].
  rewrite (@Gaussian_exact_run _ _ _ draw_normal variational_expectations _ 1)
    by reflexivity.
  eexists. split; [|split; [|split]].
  - cbv - [Rplus Rminus Rmult Rdiv Ropp Rinv ln PI IZR INR exp].
    reflexivity.
  - rewrite ln_1. field.
  - match goal with |- Rabs ?x < _ => replace x with 0 end.
    + rewrite Rabs_R0. lra.
    + rewrite ln_1. field.
  - rewrite ln_1. pose proof ln_2PI_bounds as [Hlo Hhi].
    apply Rabs_def1; lra.
Qed.

End RealClaims.

(** ** Examples *)

Section Examples.

Local Abbreviation ex_se :=
  (stochastic_expectations ex_draw ex_expectations).

(** *** The array operations on small inputs *)

Example transpose_perm_201 :
  tf_transpose_perm
    (mkTensor [2; 2; 3] [1; 2; 3; 4; 5; 6; 7; 8; 9; 10; 11; 12]%R) [2; 0; 1]
  = Ok (mkTensor [3; 2; 2] [1; 4; 7; 10; 2; 5; 8; 11; 3; 6; 9; 12]%R).
Proof. reflexivity. Qed.

Example transpose_default :
  tf_transpose (mkTensor [2; 3] [1; 2; 3; 4; 5; 6]%R)
  = Ok (mkTensor [3; 2] [1; 4; 2; 5; 3; 6]%R).
Proof. reflexivity. Qed.

Example tile_rows :
  tf_tile (mkTensor [1; 2] [1; 2]%R) [3; 1]
  = Ok (mkTensor [3; 2] [1; 2; 1; 2; 1; 2]%R).
Proof. reflexivity. Qed.

Example tile_needs_one_multiple_per_axis :
  tf_tile (mkTensor [1; 1; 1; 1] [1%R]) [20; 1; 1] = Raise ValueError.
Proof. reflexivity. Qed.

Example broadcast_row_against_matrix :
  broadcast_shapes [1; 5] [3; 5] = Some [3; 5]
  /\ broadcast_shapes [2; 5] [3; 5] = None
  /\ broadcast_shapes [] [1] = Some [1].
Proof. repeat split. Qed.

Example add_broadcasts :
  tf_add (mkTensor [2; 1] [10; 20]%R) (mkTensor [2] [1; 2]%R)
  = Ok (mkTensor [2; 2] [10 + 1; 10 + 2; 20 + 1; 20 + 2]%R).
Proof. reflexivity. Qed.

(** [Fvar] for [L[:,:,0] = [[1, 0], [3, 4]]]: the diagonal [[1, 25]] of
    [L L^T]. *)
Example Fvar_of_two_points :
  exists t,
    Fvar_of ex_L221 = Ok t /\ shape t = [1; 2]
    /\ get t [0; 0] = 1%R /\ get t [0; 1] = 25%R.
Proof.
  eexists. split; [reflexivity|]. split; [reflexivity|].
  split; unfold get, sum_upto; simpl; lra.
Qed.

(** Two samples [[1, 2]] and [[3, 4]]: mean [[2, 3]], variance [[1, 1]]. *)
Example estimate_mu_var_two_samples :
  exists Gmu Gvar,
    estimate_mu_var (Gaussian_init 2 false)
      (mkTensor [2; 2] [1; 2; 3; 4]%R) 0
    = (Ok (Gmu, Gvar), 0)
    /\ shape Gmu = [2] /\ shape Gvar = [2]
    /\ get Gmu [0] = 2%R /\ get Gmu [1] = 3%R
    /\ get Gvar [0] = 1%R /\ get Gvar [1] = 1%R.
Proof.
  eexists. eexists. split; [reflexivity|].
  split; [reflexivity|]. split; [reflexivity|].
  repeat split; unfold get, sum_upto; simpl; lra.
Qed.

(** *** The theorems at concrete inputs *)


Lemma poisson_exact_witness :
  ex_se (Poisson_init tf_exp 20 true) ex_Fmu11 ex_L111 ex_Y11 0
  = (Raise (AttributeError "variance"), 0).
Proof.
  apply (poisson_exact_reuses_gaussian_formula ex_draw ex_expectations
           tf_exp 20 ex_Fmu11 ex_L111 ex_Y11 (N:=1) (M_:=1) 0);
    reflexivity.
Defined.

Lemma gaussian_exact_result_shape_witness :
  exists t,
    ex_se (set_variance 1%R (Gaussian_init 20 true)) ex_Fmu21 ex_L221 ex_Y21 0
    = (Ok t, 0)
    /\ shape t = [1; 2]
    /\ (shape ex_Y21 = shape ex_Fmu21 -> shape t = rev (shape ex_Y21)).
Proof.
  apply (gaussian_exact_result_shape ex_draw ex_expectations 20 1%R
           ex_Fmu21 ex_L221 ex_Y21 (N:=2) (M_:=1) (N':=2) (M':=1) 0);
    reflexivity.
Defined.

Lemma gaussian_exact_rejects_witness :
  ex_se (set_variance 1%R (Gaussian_init 20 true)) ex_Fmu52 ex_L553 ex_Y52 0
  = (Raise ValueError, 0).
Proof.
  apply (gaussian_exact_rejects_output_mismatch ex_draw ex_expectations 20 1%R
           ex_Fmu52 ex_L553 ex_Y52 (N:=5) (M_:=2) (K:=3) (N':=5) (M':=2) 0);
    try reflexivity; lia.
Defined.

(** [L] and [L'] have the covariance diagonals [1] and [25] and the
    off-diagonal entries [3] and [5]. *)
Lemma gaussian_exact_cov_diag_witness :
  ex_se (set_variance 1%R (Gaussian_init 20 true)) ex_Fmu21 ex_L221 ex_Y21 0
  = ex_se (set_variance 1%R (Gaussian_init 20 true)) ex_Fmu21 ex_L221' ex_Y21 0.
Proof.
  apply (gaussian_exact_depends_on_cov_diag ex_draw ex_expectations 20 1%R
           ex_Fmu21 ex_Y21 ex_L221 ex_L221' (N:=2) (M_:=1) 0);
    try reflexivity.
  intros n m Hn Hm.
  assert (Hm0 : m = 0) by lia. subst m.
  assert (Hn01 : n = 0 \/ n = 1) by lia.
  destruct Hn01 as [-> | ->];
    unfold cov_diag, sum_upto, get; simpl; lra.
Defined.

Lemma estimate_mu_var_witness :
  exists Gmu Gvar,
    estimate_mu_var (Gaussian_init 1 false) ex_G12 0 = (Ok (Gmu, Gvar), 0)
    /\ shape Gmu = [2] /\ shape Gvar = [2]
    /\ get Gvar [0] = 0%R /\ get Gvar [1] = 0%R.
Proof.
  destruct (estimate_mu_var_moments (rng:=nat) (Gaussian_init 1 false)
              ex_G12 (S_:=1) (sh:=[2]) 0 eq_refl)
    as (Gmu & Gvar & Hrun & Hsmu & Hsvar & _ & _ & Hzero).
  exists Gmu, Gvar. repeat (split; [assumption|]).
  split; apply (Hzero eq_refl); repeat constructor.
Defined.


(** C1, counterexample. For [Fmu] and [Y] of shape [[2, 1]] and [L] of
    shape [[2, 2, 1]], [Gaussian] with [exact=True] returns an array of
    shape [[1, 2]], which is not the shape of [Y]. *)
Lemma result_shape_differs_from_Y :
  exists t,
    ex_se (Gaussian_init 20 true) ex_Fmu21 ex_L221 ex_Y21 0 = (Ok t, 0)
    /\ shape t = [1; 2]
    /\ shape t <> shape ex_Y21.
Proof.
  eexists. split; [vm_compute; reflexivity|].
  split; [reflexivity|discriminate].
Qed.

(** C3, counterexample. For [Fmu] and [Y] of shape [[5, 1]] and [L] of
    shape [[5, 5, 3]] the last axis of [L] differs from the column count
    of [Fmu], yet [Gaussian] with [exact=True] raises nothing and
    returns an array of shape [[3, 5]]. *)
Lemma inconsistent_shapes_accepted :
  nth 2 (shape ex_L553) 0 <> nth 1 (shape ex_Fmu51) 0
  /\ exists t,
       ex_se (Gaussian_init 20 true) ex_Fmu51 ex_L553 ex_Y51 0 = (Ok t, 0)
       /\ shape t = [3; 5].
Proof.
  split; [discriminate|].
  eexists. split; [vm_compute; reflexivity|reflexivity].
Qed.

(** C5 and C9 at a concrete input: with [exact=False] the generic path
    draws the [20 * 1 * 1 * 1] innovations and then raises [ValueError]. *)
Example generic_path_at_single_point :
  ex_se (Gaussian_init 20 false) ex_Fmu11 ex_L111 ex_Y11 0
  = (Raise ValueError, 20)
  /\ ex_se (Poisson_init tf_exp 20 false) ex_Fmu11 ex_L111 ex_Y11 0
     = (Raise ValueError, 20).
Proof. split; vm_compute; reflexivity. Qed.
End Examples.

(** ** Further properties of the methods *)

Section MoreProperties.

Context {T : Type} `{Scalar T}.
Variable rng : Type.
Variable draw_normal : list nat -> dtype -> rng -> tensor T * rng.
Variable variational_expectations :
  likelihood (T:=T) -> tensor T -> tensor T -> tensor T -> M rng (tensor T).
Variable densities_gaussian :
  tensor T -> tensor T -> tensor T -> result (tensor T).
Variable densities_poisson : tensor T -> tensor T -> result (tensor T).

Local Abbreviation run_se :=
  (stochastic_expectations draw_normal variational_expectations).

(** The closed-form value as one array, for [L] of any shape
    [[N, K, M]]. *)
Lemma exact_value_rect (v : T) (Fmu L Y : tensor T) (N K M_ : nat) :
  shape Fmu = [N; M_] -> shape L = [N; K; M_] -> shape Y = [N; M_] ->
  exact_value v Fmu L Y =
  Ok (tabulate [M_; N]
        (fun idx =>
           gaussian_formula v
             (get Y [nth 1 idx 0; nth 0 idx 0])
             (get Fmu [nth 1 idx 0; nth 0 idx 0])
             (cov_diag L (nth 1 idx 0) (nth 0 idx 0)))).
Proof.
  intros HF HL HY.
  unfold exact_value. rewrite (Fvar_of_value L HL). cbn [rbind].
  rewrite (tf_transpose_value2 Fmu HF), (tf_transpose_value2 Y HY).
  cbn [rbind].
  unfold closed_form, tf_log, tf_square, tf_map, tf_mul, tf_sub, tf_add, tf_div.
  cbn [rbind shape].
  rewrite (@tf_binop_value _ _ s_mul _ _ [1]) by reflexivity. cbn [rbind].
  rewrite (@tf_binop_value _ _ s_sub _ _ [1]) by reflexivity. cbn [rbind].
  rewrite (@tf_binop_value _ _ s_sub _ _ [M_; N])
    by (rewrite !shape_tabulate; apply broadcast_shapes_refl).
  cbn [rbind]. rewrite !shape_tabulate.
  rewrite (@tf_binop_value _ _ s_add _ _ [M_; N])
    by (rewrite !shape_tabulate; apply broadcast_shapes_refl).
  cbn [rbind].
  rewrite (@tf_binop_value _ _ s_mul _ _ [M_; N])
    by (rewrite !shape_tabulate; apply broadcast_shapes_nil_l).
  cbn [rbind].
  rewrite (@tf_binop_value _ _ s_div _ _ [M_; N])
    by (rewrite !shape_tabulate; apply broadcast_shapes_one_r; discriminate).
  cbn [rbind].
  rewrite (@tf_binop_value _ _ s_sub _ _ [M_; N])
    by (rewrite !shape_tabulate; apply broadcast_shapes_one_l; discriminate).
  f_equal. apply tabulate_ext. intros idx Hr.
  destruct (in_range_2 Hr) as (m & n & -> & Hm & Hn).
  assert (H0 : in_range [0] [1]) by (repeat constructor).
  rewrite !shape_tabulate. cbn [shape scalar nth].
  repeat first
    [ rewrite (bidx_self Hr)
    | progress change (bidx [] [m; n]) with (@nil nat)
    | progress change (bidx [1] [m; n]) with [0]
    | progress change (bidx [] [0]) with (@nil nat)
    | progress change (bidx [1] [0]) with [0]
    | rewrite get_tabulate by first [exact Hr | exact H0]
    | rewrite get_scalar
    | rewrite get_singleton ].
  reflexivity.
Qed.

(** The two closed-form branches are the same computation. *)
Lemma Poisson_exact_as_Gaussian (self : likelihood) (Fmu L Y : tensor T)
    (st : rng) :
  exact self = Some true ->
  Poisson_stochastic_expectations draw_normal variational_expectations
    self Fmu L Y st
  = Gaussian_stochastic_expectations draw_normal variational_expectations
      self Fmu L Y st.
Proof.
  intros Hex.
  unfold Poisson_stochastic_expectations, Gaussian_stochastic_expectations,
    getattr_exact, bind.
  rewrite Hex. reflexivity.
Qed.

(** Without a [variance] attribute the closed-form branch raises. *)
Lemma Gaussian_exact_no_variance (self : likelihood) (Fmu L Y : tensor T)
    (st : rng) :
  exact self = Some true -> variance self = None ->
  exists e,
    Gaussian_stochastic_expectations draw_normal variational_expectations
      self Fmu L Y st = (Raise e, st).
Proof.
  intros Hex Hv.
  unfold Gaussian_stochastic_expectations, getattr_exact, getattr_variance,
    bind, lift, ret, raise.
  rewrite Hex, Hv.
  repeat match goal with
         | |- context [match ?r with Ok _ => _ | Raise _ => _ end] =>
             destruct r; try (eexists; reflexivity)
         end.
Qed.

(** [exact_value] succeeds only on an [L] of three axes. *)
Lemma exact_value_rank (v : T) (Fmu L Y t : tensor T) :
  exact_value v Fmu L Y = Ok t -> rank L = 3.
Proof.
  unfold exact_value, Fvar_of, tf_transpose_perm, is_perm.
  destruct (Nat.eqb_spec (length [2; 0; 1]) (rank L)) as [Hr|Hr].
  - intros _. simpl in Hr. now symmetry.
  - cbn [andb rbind]. discriminate.
Qed.


Lemma Gaussian_returns_only_closed_form (self : likelihood)
    (Fmu L Y t : tensor T) (st st' : rng) :
  Gaussian_stochastic_expectations draw_normal variational_expectations
    self Fmu L Y st = (Ok t, st') ->
  exact self = Some true /\ variance self <> None /\ rank L = 3 /\ st' = st.
Proof.
  intros Hrun.
  destruct (exact self) as [[|]|] eqn:Hex.
  - destruct (variance self) as [v|] eqn:Hv.
    + rewrite (Gaussian_exact_run draw_normal variational_expectations
                 self Fmu L Y st Hex Hv) in Hrun.
      injection Hrun as Hval Hst.
      repeat split; [discriminate|now apply exact_value_rank in Hval|now symmetry].
    + destruct (Gaussian_exact_no_variance self Fmu L Y st Hex Hv) as (e & He).
      rewrite He in Hrun. discriminate.
  - unfold Gaussian_stochastic_expectations, getattr_exact, bind in Hrun.
    rewrite Hex in Hrun. cbn in Hrun.
    pose proof (base_se_raises draw_normal variational_expectations
                  self Fmu L Y st) as Hb.
    rewrite Hrun in Hb. discriminate.
  - unfold Gaussian_stochastic_expectations, getattr_exact, bind in Hrun.
    rewrite Hex in Hrun. discriminate.
Qed.

(** X1. [stochastic_expectations] returns an array only on the
    closed-form branch: if a call returns, the instance is not a bare
    [StochasticLikelihood], its [exact] flag is true, it has a
    [variance] attribute, [L] has three axes, and the random stream is
    where it was before the call. *)
Theorem stochastic_expectations_returns_only_closed_form
    (self : likelihood) (Fmu L Y t : tensor T) (st st' : rng) :
  run_se self Fmu L Y st = (Ok t, st') ->
  class_of self <> StochasticLikelihood
  /\ exact self = Some true
  /\ variance self <> None
  /\ rank L = 3
  /\ st' = st.
Proof.
  unfold stochastic_expectations. intros Hrun.
  destruct (class_of self) eqn:Hc.
  - pose proof (base_se_raises draw_normal variational_expectations
                  self Fmu L Y st) as Hb.
    rewrite Hrun in Hb. discriminate.
  - split; [discriminate|].
    exact (@Gaussian_returns_only_closed_form self Fmu L Y t st st' Hrun).
  - split; [discriminate|].
    destruct (exact self) as [[|]|] eqn:Hex.
    + rewrite (Poisson_exact_as_Gaussian self Fmu L Y st Hex) in Hrun.
      destruct (@Gaussian_returns_only_closed_form self Fmu L Y t st st' Hrun)
        as (_ & Hv & Hr & Hs).
      now repeat split.
    + unfold Poisson_stochastic_expectations, getattr_exact, getattr_invlink,
        bind, lift, ret, raise in Hrun.
      rewrite Hex in Hrun.
      destruct (invlink self) as [f|]; [|discriminate].
      destruct (f Fmu) as [F'|e]; [|discriminate].
      pose proof (base_se_raises draw_normal variational_expectations
                    self F' L Y st) as Hb.
      rewrite Hrun in Hb. discriminate.
    + unfold Poisson_stochastic_expectations, getattr_exact, bind in Hrun.
      rewrite Hex in Hrun. discriminate.
Qed.

(** X2. On the closed-form branch of [Gaussian] and of [Poisson], an [L]
    that does not have exactly three axes is rejected by
    [tf.transpose(L, [2,0,1])] with [ValueError], before any attribute
    is read and without touching the random stream. *)
Theorem exact_path_needs_three_axes
    (self : likelihood) (Fmu L Y : tensor T) (st : rng) :
  class_of self <> StochasticLikelihood ->
  exact self = Some true ->
  rank L <> 3 ->
  run_se self Fmu L Y st = (Raise ValueError, st).
Proof.
  intros Hc Hex Hr.
  assert (HG : Gaussian_stochastic_expectations draw_normal
                 variational_expectations self Fmu L Y st
               = (Raise ValueError, st)).
  { unfold Gaussian_stochastic_expectations, getattr_exact, bind, lift, ret.
    rewrite Hex. unfold tf_transpose_perm, is_perm.
    destruct (Nat.eqb_spec (length [2; 0; 1]) (rank L)) as [E|E].
    - simpl in E. congruence.
    - reflexivity. }
  unfold stochastic_expectations.
  destruct (class_of self); [contradiction|exact HG|].
  now rewrite (Poisson_exact_as_Gaussian self Fmu L Y st Hex).
Qed.

(** X3. The closed-form branch of [Gaussian] neither requires [L] to be
    square nor looks at its triangular structure: for [Fmu] and [Y] of
    shape [[N, M]] and [L] of any shape [[N, K, M]] it returns the
    [[M, N]] array whose entry [(m, n)] is the closed form at
    [Y[n, m]], [Fmu[n, m]] and [Fvar = sum over all k < K of
    L[n, k, m]^2], whatever the sample count. *)
Theorem gaussian_exact_rectangular_factor
    (ns : nat) (v : T) (Fmu L Y : tensor T) (N K M_ : nat) (st : rng) :
  shape Fmu = [N; M_] -> shape L = [N; K; M_] -> shape Y = [N; M_] ->
  run_se (set_variance v (Gaussian_init ns true)) Fmu L Y st
  = (Ok (tabulate [M_; N]
           (fun idx =>
              gaussian_formula v
                (get Y [nth 1 idx 0; nth 0 idx 0])
                (get Fmu [nth 1 idx 0; nth 0 idx 0])
                (sum_upto K (fun k =>
                   s_mul (get L [nth 1 idx 0; k; nth 0 idx 0])
                         (get L [nth 1 idx 0; k; nth 0 idx 0]))))),
     st).
Proof.
  intros HF HL HY.
  unfold stochastic_expectations. cbn [class_of set_variance Gaussian_init].
  rewrite (@Gaussian_exact_run _ _ _ draw_normal variational_expectations _ v)
    by reflexivity.
  rewrite (exact_value_rect v Fmu L Y HF HL HY).
  unfold cov_diag. rewrite HL. reflexivity.
Qed.

(** X4. On the closed-form branch of [Gaussian] the mean and the data
    enter only through the squared residual: two pairs [(Fmu, Y)] of
    shape [[N, M]] with the same [(Y - Fmu)^2] at every point give the
    same outcome. *)
Theorem gaussian_exact_depends_on_residual
    (ns : nat) (v : T) (Fmu1 Y1 Fmu2 Y2 L : tensor T) (N K M_ : nat)
    (st : rng) :
  shape Fmu1 = [N; M_] -> shape Y1 = [N; M_] ->
  shape Fmu2 = [N; M_] -> shape Y2 = [N; M_] ->
  shape L = [N; K; M_] ->
  (forall n m, n < N -> m < M_ ->
     s_mul (s_sub (get Y1 [n; m]) (get Fmu1 [n; m]))
           (s_sub (get Y1 [n; m]) (get Fmu1 [n; m]))
     = s_mul (s_sub (get Y2 [n; m]) (get Fmu2 [n; m]))
             (s_sub (get Y2 [n; m]) (get Fmu2 [n; m]))) ->
  run_se (set_variance v (Gaussian_init ns true)) Fmu1 L Y1 st
  = run_se (set_variance v (Gaussian_init ns true)) Fmu2 L Y2 st.
Proof.
  intros HF1 HY1 HF2 HY2 HL Hres.
  unfold stochastic_expectations. cbn [class_of set_variance Gaussian_init].
  rewrite !(@Gaussian_exact_run _ _ _ draw_normal variational_expectations _ v)
    by reflexivity.
  rewrite (exact_value_rect v Fmu1 L Y1 HF1 HL HY1).
  rewrite (exact_value_rect v Fmu2 L Y2 HF2 HL HY2).
  f_equal. f_equal. apply tabulate_ext. intros idx Hr.
  destruct (in_range_2 Hr) as (m & n & -> & Hm & Hn). cbn [nth].
  unfold gaussian_formula. now rewrite (Hres n m Hn Hm).
Qed.

(** X5. [estimate_mu_var] fails exactly on an array without axes, with
    [ValueError]; on every array with a sample axis, of any length and
    for an instance of any class, it returns two arrays of the shape of
    one sample and leaves the random stream untouched. *)
Theorem estimate_mu_var_needs_sample_axis
    (self : likelihood) (G : tensor T) (st : rng) :
  (rank G = 0 ->
   estimate_mu_var self G st = (Raise ValueError, st))
  /\ (rank G <> 0 ->
      exists Gmu Gvar,
        estimate_mu_var self G st = (Ok (Gmu, Gvar), st)
        /\ shape Gmu = tl (shape G) /\ shape Gvar = tl (shape G)).
Proof.
  unfold rank. split.
  - intros Hr. destruct (shape G) eqn:HG; [|discriminate].
    unfold estimate_mu_var, bind, lift, tf_reduce_mean0. now rewrite HG.
  - intros Hr. destruct (shape G) as [|S_ sh] eqn:HG; [contradiction|].
    destruct (estimate_mu_var_run (rng:=rng) self G st HG)
      as (Gmu & Gvar & Hrun & Hsmu & Hsvar & _).
    exists Gmu, Gvar. now repeat split.
Qed.

(** X6. The signatures of [logp] do not agree: the base class declares
    [logp(Gmu, Gvar, Y)], [Gaussian] and [Poisson] define [logp(F, Y)].
    A call with three arrays on an instance of a class that overrides
    [logp], and a call with two arrays on an instance of a class that
    does not, are both [TypeError]s. *)
Theorem logp_signatures_disagree
    (self : likelihood) (A B C : tensor T) (st : rng) :
  (overrides (class_of self) m_logp = true ->
   logp densities_gaussian densities_poisson self [A; B; C] st
   = (Raise TypeError, st))
  /\ (overrides (class_of self) m_logp = false ->
      logp densities_gaussian densities_poisson self [A; B] st
      = (Raise TypeError, st)).
Proof.
  unfold logp. split; intros Ho;
    destruct (class_of self); simpl in Ho; try discriminate; reflexivity.
Qed.

(** X7. The closed-form branch of [Poisson] never calls [invlink] and
    never checks that it is [tf.exp]: two instances that differ only in
    their link have the same outcome, with or without a [variance]
    attribute. *)
Theorem poisson_exact_ignores_invlink
    (link1 link2 : tensor T -> result (tensor T)) (ns : nat)
    (Fmu L Y : tensor T) (st : rng) :
  run_se (Poisson_init link1 ns true) Fmu L Y st
  = run_se (Poisson_init link2 ns true) Fmu L Y st
  /\ (forall v,
        run_se (set_variance v (Poisson_init link1 ns true)) Fmu L Y st
        = run_se (set_variance v (Poisson_init link2 ns true)) Fmu L Y st).
Proof.
  split; [|intros v];
    unfold stochastic_expectations;
    cbn [class_of set_variance Poisson_init];
    rewrite !Poisson_exact_as_Gaussian by reflexivity;
    unfold Gaussian_stochastic_expectations, getattr_exact, getattr_variance,
      bind;
    reflexivity.
Qed.
End MoreProperties.

(** ** Further properties over the real numbers *)

Section MoreRealProperties.

Variable rng : Type.
Variable draw_normal : list nat -> dtype -> rng -> tensor R * rng.
Variable variational_expectations :
  likelihood (T:=R) -> tensor R -> tensor R -> tensor R -> M rng (tensor R).

Local Open Scope R_scope.

Local Abbreviation run_se :=
  (stochastic_expectations draw_normal variational_expectations).

(** Sums of real numbers. *)
Lemma sum_upto_0 (f : nat -> R) : sum_upto 0 f = 0.
Proof. reflexivity. Qed.

Lemma sum_upto_S (n : nat) (f : nat -> R) :
  sum_upto (S n) f = sum_upto n f + f n.
Proof.
  unfold sum_upto. rewrite seq_S, fold_left_app. reflexivity.
Qed.

Lemma sum_upto_plus (n : nat) (f g : nat -> R) :
  sum_upto n (fun k => f k + g k) = sum_upto n f + sum_upto n g.
Proof.
  induction n as [|n IH]; [rewrite !sum_upto_0; lra|].
  rewrite !sum_upto_S, IH. lra.
Qed.

Lemma sum_upto_scal (n : nat) (c : R) (f : nat -> R) :
  sum_upto n (fun k => c * f k) = c * sum_upto n f.
Proof.
  induction n as [|n IH]; [rewrite !sum_upto_0; lra|].
  rewrite !sum_upto_S, IH. lra.
Qed.

Lemma sum_upto_const (n : nat) (c : R) :
  sum_upto n (fun _ => c) = INR n * c.
Proof.
  induction n as [|n IH]; [rewrite sum_upto_0; simpl; lra|].
  rewrite sum_upto_S, IH, S_INR. lra.
Qed.

Lemma sum_upto_nonneg (n : nat) (f : nat -> R) :
  (forall k, (k < n)%nat -> 0 <= f k) -> 0 <= sum_upto n f.
Proof.
  induction n as [|n IH]; intros Hf; [rewrite sum_upto_0; lra|].
  rewrite sum_upto_S.
  assert (0 <= sum_upto n f) by (apply IH; intros k Hk; apply Hf; lia).
  assert (0 <= f n) by (apply Hf; lia). lra.
Qed.

Lemma sum_upto_le (n : nat) (f g : nat -> R) :
  (forall k, (k < n)%nat -> f k <= g k) -> sum_upto n f <= sum_upto n g.
Proof.
  induction n as [|n IH]; intros Hfg; [rewrite !sum_upto_0; lra|].
  rewrite !sum_upto_S.
  assert (sum_upto n f <= sum_upto n g)
    by (apply IH; intros k Hk; apply Hfg; lia).
  assert (f n <= g n) by (apply Hfg; lia). lra.
Qed.

Lemma sum_upto_squares_zero (n : nat) (f : nat -> R) :
  sum_upto n (fun k => f k * f k) = 0 <->
  (forall k, (k < n)%nat -> f k = 0).
Proof.
  induction n as [|n IH].
  - split; [intros _ k Hk; lia|intros _; apply sum_upto_0].
  - rewrite sum_upto_S.
    assert (Hs : 0 <= sum_upto n (fun k => f k * f k))
      by (apply sum_upto_nonneg; intros; nra).
    assert (Hn : 0 <= f n * f n) by nra.
    split.
    + intros Hz k Hk.
      assert (Hs0 : sum_upto n (fun k => f k * f k) = 0) by lra.
      assert (Hn0 : f n * f n = 0) by lra.
      destruct (Nat.eq_dec k n) as [->|Hne].
      * nra.
      * apply (proj1 IH Hs0). lia.
    + intros Hall.
      rewrite (proj2 IH) by (intros k Hk; apply Hall; lia).
      rewrite (Hall n) by lia. lra.
Qed.

Lemma cov_diag_nonneg (L : tensor R) (n m : nat) : 0 <= cov_diag L n m.
Proof.
  unfold cov_diag. apply sum_upto_nonneg. intros k _.
  cbn [s_mul Scalar_R]. nra.
Qed.


(** The closed-form branch of [Gaussian], entry by entry, for [L] of
    shape [[N, K, M]]. *)
Lemma gaussian_exact_entries_rect (ns : nat) (v : R) (Fmu L Y : tensor R)
    (N K M_ : nat) (st : rng) :
  shape Fmu = [N; M_] -> shape L = [N; K; M_] -> shape Y = [N; M_] ->
  exists t,
    run_se (set_variance v (Gaussian_init ns true)) Fmu L Y st = (Ok t, st)
    /\ forall n m, (n < N)%nat -> (m < M_)%nat ->
         get t [m; n] =
         - (1 / 2) * ln (2 * PI) - 1 / 2 * ln v
         - 1 / 2 * ((get Y [n; m] - get Fmu [n; m])
                    * (get Y [n; m] - get Fmu [n; m])
                    + cov_diag L n m) / v.
Proof.
  intros HF HL HY.
  unfold stochastic_expectations. cbn [class_of set_variance Gaussian_init].
  rewrite (@Gaussian_exact_run _ _ _ draw_normal variational_expectations _ v)
    by reflexivity.
  rewrite (exact_value_rect v Fmu L Y HF HL HY).
  eexists. split; [reflexivity|].
  intros n m Hn Hm.
  rewrite get_tabulate by (repeat constructor; assumption).
  reflexivity.
Qed.

(** X8. Over the reals and for a positive [variance], no entry of the
    closed-form result of [Gaussian] exceeds
    [-0.5*log(2 pi) - 0.5*log(variance)], and an entry reaches this value
    exactly when [Y] equals [Fmu] at that point and the row of [L] for
    that point and output is zero. *)
Theorem gaussian_exact_upper_bound
    (ns : nat) (v : R) (Fmu L Y : tensor R) (N K M_ : nat) (st : rng) :
  0 < v ->
  shape Fmu = [N; M_] -> shape L = [N; K; M_] -> shape Y = [N; M_] ->
  exists t,
    run_se (set_variance v (Gaussian_init ns true)) Fmu L Y st = (Ok t, st)
    /\ forall n m, (n < N)%nat -> (m < M_)%nat ->
         get t [m; n] <= - (1 / 2) * ln (2 * PI) - 1 / 2 * ln v
         /\ (get t [m; n] = - (1 / 2) * ln (2 * PI) - 1 / 2 * ln v
             <-> get Y [n; m] = get Fmu [n; m]
                 /\ forall k, (k < K)%nat -> get L [n; k; m] = 0).
Proof.
  intros Hv HF HL HY.
  destruct (gaussian_exact_entries_rect ns v Fmu L Y st HF HL HY)
    as (t & Hrun & Hget).
  exists t. split; [exact Hrun|].
  intros n m Hn Hm. rewrite (Hget n m Hn Hm).
  pose proof (cov_diag_nonneg L n m) as HF0.
  set (d := get Y [n; m] - get Fmu [n; m]).
  set (F := cov_diag L n m) in *.
  assert (Hd : 0 <= d * d) by nra.
  assert (Hiv : 0 < / v) by now apply Rinv_0_lt_compat.
  assert (Hq : 1 / 2 * (d * d + F) / v = (1 / 2 * (d * d + F)) * / v)
    by (unfold Rdiv; ring).
  assert (Hq0 : 0 <= 1 / 2 * (d * d + F) / v)
    by (rewrite Hq; apply Rmult_le_pos; lra).
  split; [lra|].
  split.
  - intros Heq.
    assert (Hz : (1 / 2 * (d * d + F)) * / v = 0) by lra.
    apply Rmult_integral in Hz. destruct Hz as [Hz|Hz]; [|lra].
    assert (Hd0 : d * d = 0) by lra.
    assert (HF00 : F = 0) by lra.
    split.
    + unfold d in Hd0. nra.
    + unfold F, cov_diag in HF00. rewrite HL in HF00. cbn [nth] in HF00.
      exact (proj1 (sum_upto_squares_zero K (fun k => get L [n; k; m])) HF00).
  - intros [Hy Hrow].
    assert (Hd0 : d = 0) by (unfold d; lra).
    assert (HF00 : F = 0).
    { unfold F, cov_diag. rewrite HL. cbn [nth].
      exact (proj2 (sum_upto_squares_zero K (fun k => get L [n; k; m])) Hrow). }
    rewrite Hd0, HF00. unfold Rdiv. ring.
Qed.

(** X9. Over the reals and for a positive [variance], the closed-form
    result of [Gaussian] does not increase with the diagonal of the
    covariance: where [L2 L2^T] has the larger diagonal entry, the
    result for [L2] is at most the result for [L1]. *)
Theorem gaussian_exact_antitone_in_covariance
    (ns : nat) (v : R) (Fmu Y L1 L2 : tensor R) (N K1 K2 M_ : nat)
    (st : rng) :
  0 < v ->
  shape Fmu = [N; M_] -> shape Y = [N; M_] ->
  shape L1 = [N; K1; M_] -> shape L2 = [N; K2; M_] ->
  exists t1 t2,
    run_se (set_variance v (Gaussian_init ns true)) Fmu L1 Y st = (Ok t1, st)
    /\ run_se (set_variance v (Gaussian_init ns true)) Fmu L2 Y st
       = (Ok t2, st)
    /\ forall n m, (n < N)%nat -> (m < M_)%nat ->
         cov_diag L1 n m <= cov_diag L2 n m ->
         get t2 [m; n] <= get t1 [m; n].
Proof.
  intros Hv HF HY HL1 HL2.
  destruct (gaussian_exact_entries_rect ns v Fmu L1 Y st HF HL1 HY)
    as (t1 & Hrun1 & Hget1).
  destruct (gaussian_exact_entries_rect ns v Fmu L2 Y st HF HL2 HY)
    as (t2 & Hrun2 & Hget2).
  exists t1, t2. split; [exact Hrun1|]. split; [exact Hrun2|].
  intros n m Hn Hm Hle.
  rewrite (Hget1 n m Hn Hm), (Hget2 n m Hn Hm).
  assert (Hiv : 0 < / v) by now apply Rinv_0_lt_compat.
  unfold Rdiv.
  assert (Hmono :
    1 / 2 * ((get Y [n; m] - get Fmu [n; m]) * (get Y [n; m] - get Fmu [n; m])
             + cov_diag L1 n m) * / v
    <= 1 / 2 * ((get Y [n; m] - get Fmu [n; m])
                * (get Y [n; m] - get Fmu [n; m])
                + cov_diag L2 n m) * / v).
  { apply Rmult_le_compat_r; lra. }
  lra.
Qed.

(** X10. Over the reals and for at least one sample, every entry of the
    variance returned by [estimate_mu_var] is non-negative. *)
Theorem estimate_mu_var_variance_nonneg
    (self : likelihood (T:=R)) (G : tensor R) (S_ : nat) (sh : list nat)
    (st : rng) :
  shape G = S_ :: sh ->
  S_ <> 0%nat ->
  exists Gmu Gvar,
    estimate_mu_var self G st = (Ok (Gmu, Gvar), st)
    /\ forall idx, in_range idx sh -> 0 <= get Gvar idx.
Proof.
  intros HG HS.
  destruct (estimate_mu_var_run (rng:=rng) self G st HG)
    as (Gmu & Gvar & Hrun & _ & _ & _ & Hvar).
  exists Gmu, Gvar. split; [exact Hrun|].
  intros idx Hr. rewrite (Hvar idx Hr). unfold mean_upto.
  cbn [s_div s_mul s_sub s_of_nat Scalar_R].
  assert (Hs : 0 <= sum_upto S_
                 (fun s => (get G (s :: idx) - get Gmu idx)
                           * (get G (s :: idx) - get Gmu idx)))
    by (apply sum_upto_nonneg; intros k Hk; cbv beta;
        apply Rle_0_sqr).
  unfold Rdiv. apply Rmult_le_pos; [exact Hs|].
  left. apply Rinv_0_lt_compat. apply lt_0_INR. lia.
Qed.

(** X11. Over the reals and for at least one sample, the variance
    returned by [estimate_mu_var] is the mean of the squares minus the
    square of the mean: the estimator divides by the number of samples
    [S], not by [S - 1]. *)
Theorem estimate_mu_var_variance_identity
    (self : likelihood (T:=R)) (G : tensor R) (S_ : nat) (sh : list nat)
    (st : rng) :
  shape G = S_ :: sh ->
  S_ <> 0%nat ->
  exists Gmu Gvar,
    estimate_mu_var self G st = (Ok (Gmu, Gvar), st)
    /\ forall idx, in_range idx sh ->
         get Gvar idx =
         mean_upto S_ (fun s => get G (s :: idx) * get G (s :: idx))
         - get Gmu idx * get Gmu idx.
Proof.
  intros HG HS.
  destruct (estimate_mu_var_run (rng:=rng) self G st HG)
    as (Gmu & Gvar & Hrun & _ & _ & Hmu & Hvar).
  exists Gmu, Gvar. split; [exact Hrun|].
  intros idx Hr. rewrite (Hvar idx Hr).
  pose proof (Hmu idx Hr) as Hm. unfold mean_upto in *.
  cbn [s_div s_mul s_sub s_of_nat Scalar_R] in *.
  set (mu := get Gmu idx) in *.
  assert (Hn : INR S_ <> 0) by (apply not_0_INR; exact HS).
  rewrite (sum_upto_ext (n:=S_)
             (fun s => (get G (s :: idx) - mu) * (get G (s :: idx) - mu))
             (fun s => get G (s :: idx) * get G (s :: idx)
                       + ((-2 * mu) * get G (s :: idx) + mu * mu)))
    by (intros; ring).
  rewrite !sum_upto_plus, sum_upto_scal, sum_upto_const.
  assert (HX : sum_upto S_ (fun s => get G (s :: idx)) = mu * INR S_)
    by (rewrite Hm; field; exact Hn).
  rewrite HX. field. exact Hn.
Qed.

(** X12. Over the reals and for at least one sample, [estimate_mu_var]
    commutes with an affine change of the samples: if every sample of
    [G'] is [a * g + b] for the corresponding sample [g] of [G] (with
    [a] and [b] fixed per entry), the mean of [G'] is [a * Gmu + b] and
    its variance is [a^2 * Gvar]. *)
Theorem estimate_mu_var_affine
    (self : likelihood (T:=R)) (G G' : tensor R) (S_ : nat) (sh : list nat)
    (a b : list nat -> R) (st : rng) :
  shape G = S_ :: sh ->
  shape G' = S_ :: sh ->
  S_ <> 0%nat ->
  (forall s idx, (s < S_)%nat -> in_range idx sh ->
     get G' (s :: idx) = a idx * get G (s :: idx) + b idx) ->
  exists Gmu Gvar Gmu' Gvar',
    estimate_mu_var self G st = (Ok (Gmu, Gvar), st)
    /\ estimate_mu_var self G' st = (Ok (Gmu', Gvar'), st)
    /\ forall idx, in_range idx sh ->
         get Gmu' idx = a idx * get Gmu idx + b idx
         /\ get Gvar' idx = a idx * a idx * get Gvar idx.
Proof.
  intros HG HG' HS Haff.
  destruct (estimate_mu_var_run (rng:=rng) self G st HG)
    as (Gmu & Gvar & Hrun & _ & _ & Hmu & Hvar).
  destruct (estimate_mu_var_run (rng:=rng) self G' st HG')
    as (Gmu' & Gvar' & Hrun' & _ & _ & Hmu' & Hvar').
  exists Gmu, Gvar, Gmu', Gvar'.
  split; [exact Hrun|]. split; [exact Hrun'|].
  intros idx Hr.
  assert (Hn : INR S_ <> 0) by (apply not_0_INR; exact HS).
  assert (Hm' : get Gmu' idx = a idx * get Gmu idx + b idx).
  { rewrite (Hmu' idx Hr), (Hmu idx Hr). unfold mean_upto.
    cbn [s_div s_of_nat Scalar_R].
    rewrite (sum_upto_ext (n:=S_) (fun s => get G' (s :: idx))
               (fun s => a idx * get G (s :: idx) + b idx))
      by (intros s Hs; now apply Haff).
    rewrite sum_upto_plus, sum_upto_scal, sum_upto_const.
    field. exact Hn. }
  split; [exact Hm'|].
  rewrite (Hvar' idx Hr), (Hvar idx Hr), Hm'. unfold mean_upto.
  cbn [s_div s_mul s_sub s_of_nat Scalar_R].
  rewrite (sum_upto_ext (n:=S_)
             (fun s => (get G' (s :: idx) - (a idx * get Gmu idx + b idx))
                       * (get G' (s :: idx) - (a idx * get Gmu idx + b idx)))
             (fun s => (a idx * a idx)
                       * ((get G (s :: idx) - get Gmu idx)
                          * (get G (s :: idx) - get Gmu idx))))
    by (intros s Hs; rewrite (Haff s idx Hs Hr); ring).
  rewrite sum_upto_scal. field. exact Hn.
Qed.
End MoreRealProperties.

(** ** The further properties at concrete inputs *)

Section MoreExamples.

Local Abbreviation ex_se :=
  (stochastic_expectations ex_draw ex_expectations).

Lemma returns_only_closed_form_witness :
  exists t,
    ex_se (set_variance 1%R (Gaussian_init 20 true))
      ex_Fmu11 ex_L111 ex_Y11 0 = (Ok t, 0)
    /\ exact (set_variance 1%R (Gaussian_init 20 true)) = Some true
    /\ rank ex_L111 = 3.
Proof.
  destruct (gaussian_exact_entries_rect ex_draw ex_expectations 20 1%R
              ex_Fmu11 ex_L111 ex_Y11 (N:=1) (K:=1) (M_:=1) 0
              eq_refl eq_refl eq_refl) as (t & Hrun & _).
  exists t. split; [exact Hrun|].
  destruct (stochastic_expectations_returns_only_closed_form
              ex_draw ex_expectations _ _ _ _ _ Hrun)
    as (_ & Hex & _ & Hr & _).
  split; assumption.
Defined.

Lemma exact_path_needs_three_axes_witness :
  rank ex_Fmu11 <> 3
  /\ ex_se (Gaussian_init 20 true) ex_Fmu11 ex_Fmu11 ex_Y11 0
     = (Raise ValueError, 0).
Proof.
  split; [discriminate|].
  apply (exact_path_needs_three_axes ex_draw ex_expectations
           (Gaussian_init 20 true) ex_Fmu11 ex_Fmu11 ex_Y11 0);
    [discriminate|reflexivity|discriminate].
Defined.

Lemma gaussian_exact_rectangular_witness :
  exists t,
    ex_se (set_variance 1%R (Gaussian_init 20 true))
      ex_Fmu21 ex_L231 ex_Y21 0 = (Ok t, 0)
    /\ shape t = [1; 2].
Proof.
  eexists. split.
  - apply (gaussian_exact_rectangular_factor ex_draw ex_expectations 20 1%R
             ex_Fmu21 ex_L231 ex_Y21 (N:=2) (K:=3) (M_:=1) 0);
      reflexivity.
  - reflexivity.
Defined.

(** Exchanging [Fmu] and [Y] keeps the squared residual. *)
Lemma gaussian_exact_residual_witness :
  ex_se (set_variance 1%R (Gaussian_init 20 true)) ex_Fmu21 ex_L221 ex_Y21 0
  = ex_se (set_variance 1%R (Gaussian_init 20 true)) ex_Y21 ex_L221 ex_Fmu21 0.
Proof.
  apply (gaussian_exact_depends_on_residual ex_draw ex_expectations 20 1%R
           ex_Fmu21 ex_Y21 ex_Y21 ex_Fmu21 ex_L221
           (N:=2) (K:=2) (M_:=1) 0);
    try reflexivity.
  intros n m Hn Hm. cbn [s_mul s_sub Scalar_R]. ring.
Defined.

Lemma estimate_mu_var_sample_axis_witness :
  (rank (scalar 1%R) = 0
   /\ estimate_mu_var (Gaussian_init 20 true) (scalar 1%R) 0
      = (Raise ValueError, 0))
  /\ (rank ex_G12 <> 0
      /\ exists Gmu Gvar,
           estimate_mu_var (Gaussian_init 20 true) ex_G12 0
           = (Ok (Gmu, Gvar), 0)
           /\ shape Gmu = [2] /\ shape Gvar = [2]).
Proof.
  split; (split; [try reflexivity; discriminate|]).
  - apply (proj1 (estimate_mu_var_needs_sample_axis (rng:=nat)
                    (Gaussian_init 20 true) (scalar 1%R) 0)).
    reflexivity.
  - apply (proj2 (estimate_mu_var_needs_sample_axis (rng:=nat)
                    (Gaussian_init 20 true) ex_G12 0)).
    discriminate.
Defined.

Lemma logp_signatures_witness :
  (overrides Gaussian m_logp = true
   /\ logp ex_gaussian ex_poisson (Gaussian_init 20 true)
        [ex_Fmu11; ex_Fmu11; ex_Y11] 0
      = (Raise TypeError, 0))
  /\ (overrides StochasticLikelihood m_logp = false
      /\ logp ex_gaussian ex_poisson (StochasticLikelihood_init 20)
           [ex_Fmu11; ex_Y11] 0
         = (Raise TypeError, 0)).
Proof.
  split; (split; [reflexivity|]).
  - apply (proj1 (logp_signatures_disagree (rng:=nat) ex_gaussian ex_poisson
                    (Gaussian_init 20 true) ex_Fmu11 ex_Fmu11 ex_Y11 0)).
    reflexivity.
  - apply (proj2 (logp_signatures_disagree (rng:=nat) ex_gaussian ex_poisson
                    (StochasticLikelihood_init 20) ex_Fmu11 ex_Y11 ex_Y11 0)).
    reflexivity.
Defined.

Lemma gaussian_exact_upper_bound_witness :
  exists t,
    ex_se (set_variance 1%R (Gaussian_init 20 true))
      ex_Fmu21 ex_L231 ex_Y21 0 = (Ok t, 0)
    /\ (get t [0; 0]%nat <= - (1 / 2) * ln (2 * PI) - 1 / 2 * ln 1)%R
    /\ (get t [0; 1]%nat <= - (1 / 2) * ln (2 * PI) - 1 / 2 * ln 1)%R.
Proof.
  destruct (gaussian_exact_upper_bound ex_draw ex_expectations 20
              ex_Fmu21 ex_L231 ex_Y21 (v:=1%R) (N:=2) (K:=3) (M_:=1) 0
              Rlt_0_1 eq_refl eq_refl eq_refl) as (t & Hrun & Hb).
  exists t. split; [exact Hrun|].
  split; [apply (Hb 0 0)|apply (Hb 1 0)]; lia.
Defined.

(** At the first point the covariance diagonal is [1] for [ex_L221]
    and [5] for [ex_L231]. *)
Lemma gaussian_exact_antitone_witness :
  exists t1 t2,
    ex_se (set_variance 1%R (Gaussian_init 20 true))
      ex_Fmu21 ex_L221 ex_Y21 0 = (Ok t1, 0)
    /\ ex_se (set_variance 1%R (Gaussian_init 20 true))
         ex_Fmu21 ex_L231 ex_Y21 0 = (Ok t2, 0)
    /\ (get t2 [0; 0]%nat <= get t1 [0; 0]%nat)%R.
Proof.
  destruct (gaussian_exact_antitone_in_covariance ex_draw ex_expectations 20
              ex_Fmu21 ex_Y21 ex_L221 ex_L231
              (v:=1%R) (N:=2) (K1:=2) (K2:=3) (M_:=1) 0
              Rlt_0_1 eq_refl eq_refl eq_refl eq_refl)
    as (t1 & t2 & Hrun1 & Hrun2 & Hle).
  exists t1, t2. split; [exact Hrun1|]. split; [exact Hrun2|].
  apply (Hle 0 0); [lia|lia|].
  unfold cov_diag, sum_upto, get. simpl. lra.
Defined.

Lemma estimate_mu_var_nonneg_witness :
  exists Gmu Gvar,
    estimate_mu_var (Gaussian_init 2 false) ex_G22 0 = (Ok (Gmu, Gvar), 0)
    /\ (0 <= get Gvar [0]%nat)%R /\ (0 <= get Gvar [1]%nat)%R.
Proof.
  destruct (estimate_mu_var_variance_nonneg (rng:=nat)
              (Gaussian_init 2 false) ex_G22 (S_:=2) (sh:=[2]) 0 eq_refl
              (Nat.neq_succ_0 1))
    as (Gmu & Gvar & Hrun & Hpos).
  exists Gmu, Gvar. split; [exact Hrun|].
  split; apply Hpos; repeat constructor.
Defined.

Lemma estimate_mu_var_identity_witness :
  exists Gmu Gvar,
    estimate_mu_var (Gaussian_init 2 false) ex_G22 0 = (Ok (Gmu, Gvar), 0)
    /\ get Gvar [0] =
       (mean_upto 2 (fun s => get ex_G22 [s; 0%nat] * get ex_G22 [s; 0%nat])
        - get Gmu [0]%nat * get Gmu [0]%nat)%R.
Proof.
  destruct (estimate_mu_var_variance_identity (rng:=nat)
              (Gaussian_init 2 false) ex_G22 (S_:=2) (sh:=[2]) 0 eq_refl
              (Nat.neq_succ_0 1))
    as (Gmu & Gvar & Hrun & Hid).
  exists Gmu, Gvar. split; [exact Hrun|].
  apply Hid. repeat constructor.
Defined.

Lemma estimate_mu_var_affine_witness :
  exists Gmu Gvar Gmu' Gvar',
    estimate_mu_var (Gaussian_init 2 false) ex_G22 0 = (Ok (Gmu, Gvar), 0)
    /\ estimate_mu_var (Gaussian_init 2 false) ex_G22' 0
       = (Ok (Gmu', Gvar'), 0)
    /\ get Gmu' [0] = (2 * get Gmu [0]%nat + 1)%R
    /\ get Gvar' [0] = (2 * 2 * get Gvar [0]%nat)%R.
Proof.
  assert (Hsamples : forall s idx, s < 2 -> in_range idx [2] ->
            get ex_G22' (s :: idx) = (2 * get ex_G22 (s :: idx) + 1)%R).
  { intros s idx Hs Hr.
    inversion Hr as [|i ? idx' ? Hi Hr']; subst. inversion Hr'; subst.
    assert (Hs' : s = 0 \/ s = 1) by lia.
    assert (Hi' : i = 0 \/ i = 1) by lia.
    destruct Hs' as [-> | ->], Hi' as [-> | ->];
      unfold get; simpl; lra. }
  destruct (estimate_mu_var_affine (rng:=nat)
              (Gaussian_init 2 false) ex_G22 ex_G22' (S_:=2) (sh:=[2])
              (fun _ => 2%R) (fun _ => 1%R) 0 eq_refl eq_refl
              (Nat.neq_succ_0 1) Hsamples)
    as (Gmu & Gvar & Gmu' & Gvar' & Hrun & Hrun' & Haff).
  exists Gmu, Gvar, Gmu', Gvar'.
  split; [exact Hrun|]. split; [exact Hrun'|].
  apply Haff. repeat constructor.
Defined.

(** Two runs on a returning input, from different stream states and with
    different generators, and two runs on the sampling path: the
    outcomes agree. *)
Example two_runs_from_different_streams :
  fst (stochastic_expectations ex_draw ex_expectations
         (Gaussian_init 20 true) ex_Fmu21 ex_L221 ex_Y21 0)
  = fst (stochastic_expectations (stream_draw INR) ex_expectations
           (Gaussian_init 20 true) ex_Fmu21 ex_L221 ex_Y21 7)
  /\ stochastic_expectations ex_draw ex_expectations
       (Gaussian_init 20 false) ex_Fmu21 ex_L221 ex_Y21 0
     = (Raise ValueError, 40)
  /\ stochastic_expectations (stream_draw INR) ex_expectations
       (Gaussian_init 20 false) ex_Fmu21 ex_L221 ex_Y21 7
     = (Raise ValueError, 47).
Proof. repeat split; vm_compute; reflexivity. Qed.

End MoreExamples.

(** ** Reproducibility *)

Section Reproducibility.

Context {T : Type} `{Scalar T}.
Variable rng : Type.

(** Two generators behind [tf.random_normal] and two versions of the
    inherited [variational_expectations]: the two runs that are
    compared may differ in both. *)
Variables draw1 draw2 : list nat -> dtype -> rng -> tensor T * rng.
Variables ve1 ve2 :
  likelihood (T:=T) -> tensor T -> tensor T -> tensor T -> M rng (tensor T).

(** The closed-form branch does not read the stream: its outcome is the
    same in any two runs, and it hands the stream back as it got it. *)
Lemma Gaussian_exact_two_runs (self : likelihood) (Fmu L Y : tensor T)
    (s1 s2 : rng) :
  exact self = Some true ->
  fst (Gaussian_stochastic_expectations draw1 ve1 self Fmu L Y s1)
  = fst (Gaussian_stochastic_expectations draw2 ve2 self Fmu L Y s2)
  /\ snd (Gaussian_stochastic_expectations draw1 ve1 self Fmu L Y s1) = s1.
Proof.
  intros Hex.
  unfold Gaussian_stochastic_expectations, getattr_exact, getattr_variance,
    bind, lift, ret, raise.
  rewrite Hex.
  destruct (variance self) as [v|];
    repeat match goal with
           | |- context [match ?r with Ok _ => _ | Raise _ => _ end] =>
               destruct r
           end;
    split; reflexivity.
Qed.

(** The sampling statements leave the stream where it was, or just
    after the one draw of [rndn]. *)
Lemma sample_X_state (self : likelihood) (Fmu L : tensor T) (s : rng) :
  snd (sample_X draw1 self Fmu L s) = s
  \/ snd (sample_X draw1 self Fmu L s)
     = snd (draw1 [num_samples self; nth 2 (shape L) 0; nth 1 (shape L) 0; 1]
                  float64 s).
Proof.
  unfold sample_X, assign_rndn, assign_L, bind, lift, tf_random_normal,
    tf_shape_at.
  destruct (nth_error (shape L) 2) as [m|] eqn:E2; [|left; reflexivity].
  destruct (nth_error (shape L) 1) as [n|] eqn:E1; [|left; reflexivity].
  right.
  rewrite (nth_error_nth _ _ 0 E2), (nth_error_nth _ _ 0 E1).
  destruct (draw1 _ _ s) as [rndn s'].
  unfold tf_transpose_perm.
  destruct (is_perm [2; 0; 1] (rank L)); [|reflexivity].
  unfold tf_expand_dims. cbn [Nat.leb].
  unfold tf_tile at 1. unfold rank at 1. rewrite shape_tabulate.
  reflexivity.
Qed.

Lemma base_se_state (self : likelihood) (Fmu L Y : tensor T) (s : rng) :
  snd (StochasticLikelihood_stochastic_expectations draw1 ve1 self Fmu L Y s)
  = snd (sample_X draw1 self Fmu L s).
Proof.
  unfold StochasticLikelihood_stochastic_expectations, bind.
  pose proof (sample_X_raises draw1 self Fmu L s) as Hs.
  destruct (sample_X draw1 self Fmu L s) as [[x|e] s'];
    [discriminate|reflexivity].
Qed.

(** C8. The outcome of [stochastic_expectations] (the returned array or
    the raised exception) is the same in any two calls with the same
    instance and arguments, whatever the states of the random stream at
    the two calls, and even for two different generators: fixing the
    stream to the same state before each call is the special case of
    equal states.  A call leaves the stream where it was, or just after
    the one draw of the innovations [rndn] of shape [[S, M, N, 1]]; from
    equal states two calls therefore leave it in equal states. *)
Theorem stochastic_expectations_reproducible
    (self : likelihood) (Fmu L Y : tensor T) (s1 s2 : rng) :
  fst (stochastic_expectations draw1 ve1 self Fmu L Y s1)
  = fst (stochastic_expectations draw2 ve2 self Fmu L Y s2)
  /\ (snd (stochastic_expectations draw1 ve1 self Fmu L Y s1) = s1
      \/ snd (stochastic_expectations draw1 ve1 self Fmu L Y s1)
         = snd (draw1 [num_samples self; nth 2 (shape L) 0;
                       nth 1 (shape L) 0; 1] float64 s1)).
Proof.
  assert (Hbase : forall F,
    fst (StochasticLikelihood_stochastic_expectations draw1 ve1 self F L Y s1)
    = fst (StochasticLikelihood_stochastic_expectations
             draw2 ve2 self F L Y s2)
    /\ (snd (StochasticLikelihood_stochastic_expectations
               draw1 ve1 self F L Y s1) = s1
        \/ snd (StochasticLikelihood_stochastic_expectations
                  draw1 ve1 self F L Y s1)
           = snd (draw1 [num_samples self; nth 2 (shape L) 0;
                         nth 1 (shape L) 0; 1] float64 s1))).
  { intros F. split.
    - now rewrite !base_se_raises.
    - rewrite base_se_state. apply sample_X_state. }
  assert (HG :
    fst (Gaussian_stochastic_expectations draw1 ve1 self Fmu L Y s1)
    = fst (Gaussian_stochastic_expectations draw2 ve2 self Fmu L Y s2)
    /\ (snd (Gaussian_stochastic_expectations draw1 ve1 self Fmu L Y s1) = s1
        \/ snd (Gaussian_stochastic_expectations draw1 ve1 self Fmu L Y s1)
           = snd (draw1 [num_samples self; nth 2 (shape L) 0;
                         nth 1 (shape L) 0; 1] float64 s1))).
  { destruct (exact self) as [[|]|] eqn:Hex.
    - destruct (Gaussian_exact_two_runs self Fmu L Y s1 s2 Hex) as [Hf Hs].
      split; [exact Hf|left; exact Hs].
    - unfold Gaussian_stochastic_expectations, getattr_exact, bind.
      rewrite Hex. apply Hbase.
    - unfold Gaussian_stochastic_expectations, getattr_exact, bind.
      rewrite Hex. split; [reflexivity|left; reflexivity]. }
  unfold stochastic_expectations. destruct (class_of self).
  - apply Hbase.
  - exact HG.
  - destruct (exact self) as [[|]|] eqn:Hex.
    + rewrite !Poisson_exact_as_Gaussian by exact Hex. exact HG.
    + unfold Poisson_stochastic_expectations, getattr_exact, getattr_invlink,
        bind, lift, ret, raise.
      rewrite Hex.
      destruct (invlink self) as [f|]; [|split; [reflexivity|left; reflexivity]].
      destruct (f Fmu) as [F'|e]; [|split; [reflexivity|left; reflexivity]].
      apply Hbase.
    + unfold Poisson_stochastic_expectations, getattr_exact, bind.
      rewrite Hex. split; [reflexivity|left; reflexivity].
Qed.

End Reproducibility.
